(** * WordPress deployer: a shallow embedding of the provisioning service

    The Go sources are [main.go] (HTTP handler, resource naming, suffix
    generator) and the Kubernetes helper file (namespace, volumes, secret,
    deployments, services, readiness poll, password generator).

    Conventions of the embedding.
    - A Go [string] is a byte sequence: Rocq's [string] (a list of 8-bit
      [ascii]); [len] and slicing count bytes.
    - A Go [int] is kept as [Z].  The only integer arithmetic in the code
      adds the length of a string to small constants, far below 2^63.
    - Every interaction with the outside world (entropy, the cluster API,
      the clock) is an event; a computation reads the history of events and
      emits new ones, which is how the order of the calls is observed. *)

From Stdlib Require Import ZArith String Ascii List Lia DecimalString.
From stdpp Require Import base gmap strings list.

Open Scope Z_scope.
Open Scope string_scope.
Open Scope list_scope.

(** ** Go strings *)

Module GoString.

(** [len(s)] *)
Definition len (s : string) : Z := Z.of_nat (String.length s).

(** [s[:n]], for [0 <= n <= len(s)] (Go panics outside that range; the
    callers below slice only under the guard [len(s) > n >= 0]). *)
Definition slice_to (s : string) (n : Z) : string :=
  substring 0 (Z.to_nat n) s.

(** [s[i]]; indexing out of range panics in Go, the default byte is never
    observed by the code below (see [index_in_range] and
    [suffix_index_in_range]). *)
Definition index (s : string) (i : Z) : ascii :=
  match String.get (Z.to_nat i) s with
  | Some c => c
  | None => Ascii.zero
  end.

(** The value of a byte, [0..255]. *)
Definition byte_val (c : ascii) : Z := Z.of_N (N_of_ascii c).

(** [fmt.Sprintf("%d", z)] *)
Definition Sprintf_d (z : Z) : string := NilEmpty.string_of_int (Z.to_int z).

(** [string(bytes)] for a byte slice given as a list. *)
Fixpoint of_bytes (l : list ascii) : string :=
  match l with
  | [] => EmptyString
  | c :: l' => String c (of_bytes l')
  end.

End GoString.
Import GoString.

(** ** [strings.TrimSpace]

    The library function removes leading and trailing white space as
    defined by Unicode.  On bytes: the six ASCII white-space characters and
    the UTF-8 encodings of U+0085, U+00A0, U+1680, U+2000..U+200A, U+2028,
    U+2029, U+202F, U+205F and U+3000.  An ill-formed sequence decodes to
    U+FFFD, which is not white space, so matching the exact encodings is
    all there is to it. *)

Module Strings.

Definition asciiSpace (c : ascii) : bool :=
  let n := byte_val c in
  ((n =? 9) || (n =? 10) || (n =? 11) || (n =? 12) || (n =? 13) || (n =? 32))%Z.

(** Two-byte encodings: U+0085 = C2 85, U+00A0 = C2 A0. *)
Definition space2 (a b : ascii) : bool :=
  ((byte_val a =? 194) && ((byte_val b =? 133) || (byte_val b =? 160)))%Z.

(** Three-byte encodings: U+1680 = E1 9A 80; U+2000..U+200A = E2 80 80..8A;
    U+2028, U+2029 = E2 80 A8, A9; U+202F = E2 80 AF; U+205F = E2 81 9F;
    U+3000 = E3 80 80. *)
Definition space3 (a b c : ascii) : bool :=
  let x := byte_val a in let y := byte_val b in let z := byte_val c in
  (((x =? 225) && (y =? 154) && (z =? 128))
   || ((x =? 226) && (y =? 128)
       && (((128 <=? z) && (z <=? 138)) || (z =? 168) || (z =? 169) || (z =? 175)))
   || ((x =? 226) && (y =? 129) && (z =? 159))
   || ((x =? 227) && (y =? 128) && (z =? 128)))%Z.

(** Drop leading white space.  [fwd] tells how a multi-byte group is read:
    in order when scanning from the left, reversed when the string itself
    has been reversed to scan from the right. *)
Fixpoint dropSpace (fwd : bool) (s : string) : string :=
  match s with
  | EmptyString => s
  | String a r1 =>
    if asciiSpace a then dropSpace fwd r1
    else match r1 with
    | EmptyString => s
    | String b r2 =>
      if (if fwd then space2 a b else space2 b a) then dropSpace fwd r2
      else match r2 with
      | EmptyString => s
      | String c r3 =>
        if (if fwd then space3 a b c else space3 c b a) then dropSpace fwd r3
        else s
      end
    end
  end.

Definition TrimLeft (s : string) : string := dropSpace true s.
Definition TrimRight (s : string) : string :=
  String.rev (dropSpace false (String.rev s)).
Definition TrimSpace (s : string) : string := TrimRight (TrimLeft s).

End Strings.

(** ** Resource names and random strings ([main.go]) *)

(** [buildResourceName]: the prefix is cut so that the whole name fits
    60 bytes, counting the suffix for 5. *)
Definition buildResourceName (userPrefix resourceType suffix : string) : string :=
  let maxTotal := 60 in
  let fixedLen := len resourceType + 5 + 2 in
  let allowed := maxTotal - fixedLen in
  let allowed := if (allowed <? 0)%Z then 0 else allowed in
  let userPrefix :=
    if (len userPrefix >? allowed)%Z then slice_to userPrefix allowed else userPrefix in
  userPrefix +:+ "-" +:+ suffix +:+ "-" +:+ resourceType.

(** The resource types the handler passes to [buildResourceName]. *)
Definition resourceTypes : list string :=
  ["db-pv"; "db-pvc"; "db"; "db-svc"; "db-secret";
   "wp-pv"; "wp-pvc"; "wp"; "wp-svc"].

(** The naming rule in the words of the specification: the budget of the
    prefix is computed from the length of the suffix that is passed. *)
Definition buildName_spec (prefix resourceType suffix : string) : string :=
  let fixedLen := len resourceType + len suffix + 2 in
  let allowed := Z.max 0 (60 - fixedLen) in
  substring 0 (Z.to_nat allowed) prefix +:+ "-" +:+ suffix +:+ "-" +:+ resourceType.

(** Alphabets of the two generators. *)
Definition suffixChars : string := "abcdefghijklmnopqrstuvwxyz0123456789".
Definition passwordChars : string :=
  "ABCDEFGHIJKLMNOPQRSTUVWXYZabcdefghijklmnopqrstuvwxyz0123456789!@#$%^&*()-_+".

(** One character of [generateRandomPassword]:
    [chars[bytes[i] % byte(len(chars))]].  The length 75 fits a byte, so the
    conversion [byte(len(chars))] loses nothing. *)
Definition passwordChar (b : ascii) : ascii :=
  index passwordChars (byte_val b mod (len passwordChars mod 256)).

(** All 256 byte values. *)
Definition allBytes : list ascii :=
  map ascii_of_nat (seq 0 256).

(** The bytes that [passwordChar] sends to a given character. *)
Definition preimages (c : ascii) : list ascii :=
  List.filter (fun b => Ascii.eqb (passwordChar b) c) allBytes.

(** ** Errors *)

(** What the code can tell apart in an error of the cluster API (the helper
    never inspects it), and the message. [fmt.Errorf] with [%w] keeps the
    cause reachable, so wrapping keeps the reason. *)
Inductive StatusReason :=
| StatusReasonUnknown
| StatusReasonNotFound
| StatusReasonAlreadyExists
| StatusReasonForbidden
| StatusReasonTimeout.

Record error := mkError { Reason : StatusReason; Error : string }.

Definition Errorf (context : string) (cause : error) : error :=
  mkError (Reason cause) (context +:+ Error cause).

(** [wait.ErrWaitTimeout] *)
Definition ErrWaitTimeout : error :=
  mkError StatusReasonUnknown "timed out waiting for the condition".

(** ** Cluster objects, as the helper builds them *)

Module corev1.

Record Namespace := { ns_Name : string }.

Record PersistentVolume := {
  pv_Name : string;
  pv_Labels : gmap string string;
  pv_AccessModes : list string;
  pv_ReclaimPolicy : string;
  pv_Capacity : string;          (* the quantity, as the text that was parsed *)
  pv_HostPath : string;
  pv_HostPathType : string }.

Record PersistentVolumeClaim := {
  pvc_Name : string;
  pvc_Namespace : string;
  pvc_Labels : gmap string string;
  pvc_AccessModes : list string;
  pvc_Requests : string;
  pvc_Selector : gmap string string }.

Record Secret := {
  secret_Name : string;
  secret_Namespace : string;
  secret_Type : string;
  secret_Data : gmap string string }.

Inductive ProbeHandler :=
| TCPSocket (port : Z)
| HTTPGet (path : string) (port : Z).

Record Probe := {
  probe_Handler : ProbeHandler;
  InitialDelaySeconds : Z;
  PeriodSeconds : Z }.

Record Container := {
  c_Name : string;
  c_Image : string;
  c_PortName : string;
  c_ContainerPort : Z;
  c_EnvFromSecret : string;
  c_VolumeMount : string;
  c_MountPath : string;
  c_ReadinessProbe : Probe;
  c_LivenessProbe : Probe }.

Record Service := {
  svc_Name : string;
  svc_Namespace : string;
  svc_Labels : gmap string string;
  svc_Selector : gmap string string;
  svc_PortName : string;
  svc_Port : Z;
  svc_Type : string }.

End corev1.

Module appsv1.

Record Deployment := {
  d_Name : string;
  d_Namespace : string;
  d_Labels : gmap string string;
  d_Replicas : Z;
  d_Selector : gmap string string;
  d_TemplateLabels : gmap string string;
  d_Container : corev1.Container;
  d_VolumeName : string;
  d_ClaimName : string }.

Record DeploymentStatus := { ReadyReplicas : Z; Replicas : Z }.

End appsv1.

(** ** Events *)

(** The calls that leave the process. *)
Inductive Call :=
| RandInt (max : Z)                       (* rand.Int(rand.Reader, max) *)
| RandRead (n : nat)                      (* rand.Read(b) with len(b) = n *)
| KubeClient (kubeconfig : string)        (* building the client set *)
| NamespacesGet (name : string)
| NamespacesCreate (ns : corev1.Namespace)
| PersistentVolumesCreate (pv : corev1.PersistentVolume)
| PersistentVolumeClaimsCreate (namespace : string) (pvc : corev1.PersistentVolumeClaim)
| SecretsCreate (namespace : string) (s : corev1.Secret)
| DeploymentsCreate (namespace : string) (d : appsv1.Deployment)
| ServicesCreate (namespace : string) (s : corev1.Service)
| DeploymentsGet (namespace name : string)
| Sleep (d : Z).                          (* the poller waiting for its next tick *)

Inductive Answer :=
| Failed (e : error)
| Done                                    (* nil error; the object returned is not read *)
| Drawn (z : Z)
| Filled (bytes : string)
| Status (st : appsv1.DeploymentStatus).

Abbreviation Event := (Call * Answer)%type.
Abbreviation Trace := (list Event).

(** The outside world.  Every answer may depend on all that happened before.
    - [env_randInt]: an error or an integer; [rand.Int] returns a value in
      [[0, max)], which the model enforces by reducing modulo [max].
    - [env_randRead]: an error or a stream of bytes of which [rand.Read]
      takes as many as the buffer holds.
    - [env_parseQuantity]: whether [resource.ParseQuantity] rejects a text.
    - [env_api]: the error of a call to the cluster, [None] for nil.
    - [env_status]: the status carried by a deployment that was fetched. *)
Record Env := {
  env_randInt : Trace -> Z -> error + Z;
  env_randRead : Trace -> error + (nat -> ascii);
  env_kubeClient : Trace -> string -> option error;
  env_parseQuantity : string -> option error;
  env_api : Trace -> Call -> option error;
  env_status : Trace -> string -> string -> appsv1.DeploymentStatus }.

(** ** Computations: read the history, emit events *)

Definition M (A : Type) : Type := Trace -> A * Trace.

Definition ret {A} (a : A) : M A := fun _ => (a, []).

Definition bind {A B} (m : M A) (k : A -> M B) : M B :=
  fun h =>
    let '(a, w1) := m h in
    let '(b, w2) := k a (h ++ w1) in
    (b, w1 ++ w2).

Notation "x <- m ;; k" := (bind m (fun x => k))
  (at level 100, m at next level, right associativity).

(** [if err != nil { return f(err) }], then the rest. *)
Notation "'check' m 'orelse' f ;; k" :=
  (bind m (fun e => match e with Some err => ret (f err) | None => k end))
  (at level 100, m at next level, f at next level, right associativity).

Definition answer_of_err (e : option error) : Answer :=
  match e with Some err => Failed err | None => Done end.

(** ** Request and response ([main.go]) *)

Record RequestPayload := {
  Kubeconfig : string;
  Namespace : string;
  PersistenceDiskGB : Z;
  DatabaseDiskGB : Z;
  DeploymentName : string }.

Record APIResponse := {
  Success : bool;
  Message : string;
  Resources : list string }.

(** An inbound request: the method and what decoding the body as JSON gives
    (a field that is absent decodes to the zero value of its type). *)
Record Request := {
  Method : string;
  Body : error + RequestPayload }.

(** What the handler writes: the status code and the JSON envelope. *)
Record Response := {
  StatusCode : Z;
  Json : APIResponse }.

Definition StatusOK : Z := 200.
Definition StatusBadRequest : Z := 400.
Definition StatusMethodNotAllowed : Z := 405.
Definition StatusInternalServerError : Z := 500.

(** [w.WriteHeader(code)] followed by [respondJSON] of a failure. *)
Definition fail (code : Z) (msg : string) : Response :=
  {| StatusCode := code;
     Json := {| Success := false; Message := msg; Resources := [] |} |}.

Definition Second : Z := 1000000000.

Section Program.

Variable env : Env.

(** *** Calls to the outside *)

Definition rand_Int (max : Z) : M (error + Z) := fun h =>
  match env_randInt env h max with
  | inl e => (inl e, [(RandInt max, Failed e)])
  | inr z => (inr (z mod max), [(RandInt max, Drawn (z mod max))])
  end.

Definition rand_Read (n : nat) : M (error + list ascii) := fun h =>
  match env_randRead env h with
  | inl e => (inl e, [(RandRead n, Failed e)])
  | inr f =>
    let bytes := map f (seq 0 n) in
    (inr bytes, [(RandRead n, Filled (of_bytes bytes))])
  end.

Definition api (c : Call) : M (option error) := fun h =>
  let e := env_api env h c in (e, [(c, answer_of_err e)]).

Definition deployments_Get (namespace name : string)
  : M (error + appsv1.DeploymentStatus) := fun h =>
  match env_api env h (DeploymentsGet namespace name) with
  | Some e => (inl e, [(DeploymentsGet namespace name, Failed e)])
  | None =>
    let st := env_status env h namespace name in
    (inr st, [(DeploymentsGet namespace name, Status st)])
  end.

Definition sleep (d : Z) : M unit := fun _ => (tt, [(Sleep d, Done)]).

(** [wait.PollImmediate(interval, timeout, condition)] of the Kubernetes
    client library, on a virtual clock: the condition is evaluated at
    once and then after every interval, as long as the time waited stays
    within the timeout; it ends with nil when the condition holds, with
    the condition's error if it returns one, and with [ErrWaitTimeout]
    when the time is up. *)
Fixpoint pollTicks (ticks : nat) (interval : Z)
    (condition : M (bool * option error)) : M (option error) :=
  r <- condition ;;
  match r with
  | (_, Some err) => ret (Some err)
  | (true, None) => ret None
  | (false, None) =>
    match ticks with
    | O => ret (Some ErrWaitTimeout)
    | S ticks' => _ <- sleep interval ;; pollTicks ticks' interval condition
    end
  end.

Definition PollImmediate (interval timeout : Z)
    (condition : M (bool * option error)) : M (option error) :=
  pollTicks (Z.to_nat (timeout / interval)) interval condition.

(** *** Random strings *)

(** [generateRandomSuffix(n)]: [todo] iterations remain, [i] is the loop
    index, [result] the byte slice of length [n]. *)
Fixpoint suffixLoop (todo i : nat) (result : list ascii) : M (error + string) :=
  match todo with
  | O => ret (inr (of_bytes result))
  | S todo' =>
    r <- rand_Int (len suffixChars) ;;
    match r with
    | inl err => ret (inl err)
    | inr randIndex =>
      suffixLoop todo' (S i) (<[i := index suffixChars randIndex]> result)
    end
  end.

Definition generateRandomSuffix (n : nat) : M (error + string) :=
  suffixLoop n 0%nat (replicate n Ascii.zero).

(** [generateRandomPassword(length)]: fill the buffer from the entropy
    source, then replace every byte by a character of the alphabet. *)
Definition generateRandomPassword (length : nat) : M (error + string) :=
  r <- rand_Read length ;;
  match r with
  | inl err => ret (inl err)
  | inr bytes => ret (inr (of_bytes (map passwordChar bytes)))
  end.

(** *** The Kubernetes helper *)

(** [InitKubeClient]: resolving the configuration and building the client
    set is the business of the client library; one call that may fail. *)
Definition InitKubeClient (kubeconfig : string) : M (option error) := fun h =>
  let e := env_kubeClient env h kubeconfig in
  (e, [(KubeClient kubeconfig, answer_of_err e)]).

Definition ensureNamespace (namespace : string) : M (option error) :=
  err <- api (NamespacesGet namespace) ;;
  match err with
  | None => ret None
  | Some _ =>
    let nsSpec := {| corev1.ns_Name := namespace |} in
    err <- api (NamespacesCreate nsSpec) ;;
    match err with
    | Some err =>
      ret (Some (Errorf ("unable to create namespace " +:+ namespace +:+ ": ") err))
    | None => ret None
    end
  end.

Definition createPersistentVolume (namespace pvName hostPath : string) (sizeGB : Z)
  : M (option error) :=
  let quantity := Sprintf_d sizeGB +:+ "Gi" in
  match env_parseQuantity env quantity with
  | Some err => ret (Some (Errorf "invalid capacity: " err))
  | None =>
    let pv := {|
      corev1.pv_Name := pvName;
      corev1.pv_Labels := {[ "app" := pvName ]};
      corev1.pv_AccessModes := ["ReadWriteOnce"];
      corev1.pv_ReclaimPolicy := "Retain";
      corev1.pv_Capacity := quantity;
      corev1.pv_HostPath := hostPath;
      corev1.pv_HostPathType := "DirectoryOrCreate" |} in
    err <- api (PersistentVolumesCreate pv) ;;
    match err with
    | Some err => ret (Some (Errorf ("unable to create PV " +:+ pvName +:+ ": ") err))
    | None => ret None
    end
  end.

Definition createPersistentVolumeClaim (namespace pvcName pvName : string) (sizeGB : Z)
  : M (option error) :=
  let quantity := Sprintf_d sizeGB +:+ "Gi" in
  match env_parseQuantity env quantity with
  | Some err => ret (Some (Errorf "invalid capacity: " err))
  | None =>
    let pvc := {|
      corev1.pvc_Name := pvcName;
      corev1.pvc_Namespace := namespace;
      corev1.pvc_Labels := {[ "app" := pvcName ]};
      corev1.pvc_AccessModes := ["ReadWriteOnce"];
      corev1.pvc_Requests := quantity;
      corev1.pvc_Selector := {[ "app" := pvName ]} |} in
    err <- api (PersistentVolumeClaimsCreate namespace pvc) ;;
    match err with
    | Some err => ret (Some (Errorf ("unable to create PVC " +:+ pvcName +:+ ": ") err))
    | None => ret None
    end
  end.

(** The eight entries of the combined secret. *)
Definition secretData (rootPass wpPass deployName : string) : gmap string string :=
  <[ "MYSQL_ROOT_PASSWORD" := rootPass ]>
  (<[ "MYSQL_DATABASE" := "wordpressdb" ]>
  (<[ "MYSQL_USER" := "wordpress" ]>
  (<[ "MYSQL_PASSWORD" := wpPass ]>
  (<[ "WORDPRESS_DB_HOST" := deployName +:+ "-db-svc" ]>
  (<[ "WORDPRESS_DB_USER" := "wordpress" ]>
  (<[ "WORDPRESS_DB_PASSWORD" := wpPass ]>
  (<[ "WORDPRESS_DB_NAME" := "wordpressdb" ]> ∅))))))).

Definition createWPMySQLSecret (namespace secretName deployName : string)
  : M (option error) :=
  r <- generateRandomPassword 16 ;;
  match r with
  | inl err => ret (Some (Errorf "failed to generate root password: " err))
  | inr rootPass =>
    r <- generateRandomPassword 16 ;;
    match r with
    | inl err => ret (Some (Errorf "failed to generate wordpress user password: " err))
    | inr wpPass =>
      let secret := {|
        corev1.secret_Name := secretName;
        corev1.secret_Namespace := namespace;
        corev1.secret_Type := "Opaque";
        corev1.secret_Data := secretData rootPass wpPass deployName |} in
      err <- api (SecretsCreate namespace secret) ;;
      match err with
      | Some err =>
        ret (Some (Errorf ("unable to create secret " +:+ secretName +:+ ": ") err))
      | None => ret None
      end
    end
  end.

Definition probe (h : corev1.ProbeHandler) (delay period : Z) : corev1.Probe :=
  {| corev1.probe_Handler := h;
     corev1.InitialDelaySeconds := delay;
     corev1.PeriodSeconds := period |}.

Definition createMySQLDeployment (namespace deployName pvcName secretName : string)
  : M (option error) :=
  let deployment := {|
    appsv1.d_Name := deployName;
    appsv1.d_Namespace := namespace;
    appsv1.d_Labels := {[ "app" := deployName ]};
    appsv1.d_Replicas := 1;
    appsv1.d_Selector := {[ "app" := deployName ]};
    appsv1.d_TemplateLabels := {[ "app" := deployName ]};
    appsv1.d_Container := {|
      corev1.c_Name := "mysql";
      corev1.c_Image := "mysql:8";
      corev1.c_PortName := "mysql";
      corev1.c_ContainerPort := 3306;
      corev1.c_EnvFromSecret := secretName;
      corev1.c_VolumeMount := "mysql-persistent-storage";
      corev1.c_MountPath := "/var/lib/mysql";
      corev1.c_ReadinessProbe := probe (corev1.TCPSocket 3306) 10 5;
      corev1.c_LivenessProbe := probe (corev1.TCPSocket 3306) 30 10 |};
    appsv1.d_VolumeName := "mysql-persistent-storage";
    appsv1.d_ClaimName := pvcName |} in
  err <- api (DeploymentsCreate namespace deployment) ;;
  match err with
  | Some err =>
    ret (Some (Errorf ("unable to create MySQL deployment " +:+ deployName +:+ ": ") err))
  | None => ret None
  end.

Definition createMySQLService (namespace svcName deployName : string)
  : M (option error) :=
  let service := {|
    corev1.svc_Name := svcName;
    corev1.svc_Namespace := namespace;
    corev1.svc_Labels := {[ "app" := deployName ]};
    corev1.svc_Selector := {[ "app" := deployName ]};
    corev1.svc_PortName := "mysql";
    corev1.svc_Port := 3306;
    corev1.svc_Type := "ClusterIP" |} in
  err <- api (ServicesCreate namespace service) ;;
  match err with
  | Some err =>
    ret (Some (Errorf ("unable to create MySQL service " +:+ svcName +:+ ": ") err))
  | None => ret None
  end.

(** [dbSvcName] is a parameter the body does not use: the database host
    reaches the container through the secret. *)
Definition createWordPressDeployment
    (namespace deployName pvcName secretName dbSvcName : string)
  : M (option error) :=
  let deployment := {|
    appsv1.d_Name := deployName;
    appsv1.d_Namespace := namespace;
    appsv1.d_Labels := {[ "app" := deployName ]};
    appsv1.d_Replicas := 1;
    appsv1.d_Selector := {[ "app" := deployName ]};
    appsv1.d_TemplateLabels := {[ "app" := deployName ]};
    appsv1.d_Container := {|
      corev1.c_Name := "wordpress";
      corev1.c_Image := "wordpress:6.7.1";
      corev1.c_PortName := "http";
      corev1.c_ContainerPort := 80;
      corev1.c_EnvFromSecret := secretName;
      corev1.c_VolumeMount := "wordpress-persistent-storage";
      corev1.c_MountPath := "/var/www/html";
      corev1.c_ReadinessProbe := probe (corev1.HTTPGet "/" 80) 10 5;
      corev1.c_LivenessProbe := probe (corev1.HTTPGet "/" 80) 30 10 |};
    appsv1.d_VolumeName := "wordpress-persistent-storage";
    appsv1.d_ClaimName := pvcName |} in
  err <- api (DeploymentsCreate namespace deployment) ;;
  match err with
  | Some err =>
    ret (Some (Errorf ("unable to create WordPress deployment " +:+ deployName +:+ ": ") err))
  | None => ret None
  end.

Definition createWordPressService (namespace svcName deployName : string)
  : M (option error) :=
  let service := {|
    corev1.svc_Name := svcName;
    corev1.svc_Namespace := namespace;
    corev1.svc_Labels := {[ "app" := deployName ]};
    corev1.svc_Selector := {[ "app" := deployName ]};
    corev1.svc_PortName := "http";
    corev1.svc_Port := 80;
    corev1.svc_Type := "ClusterIP" |} in
  err <- api (ServicesCreate namespace service) ;;
  match err with
  | Some err =>
    ret (Some (Errorf ("unable to create WordPress service " +:+ svcName +:+ ": ") err))
  | None => ret None
  end.

(** The condition [waitForDeploymentReady] hands to the poller: a fetch
    error is logged and reported as "not yet", never as an error. *)
Definition readyCondition (namespace deployName : string) : M (bool * option error) :=
  r <- deployments_Get namespace deployName ;;
  match r with
  | inl _ => ret (false, None)
  | inr status =>
    if (appsv1.ReadyReplicas status >=? 1)%Z then ret (true, None)
    else ret (false, None)
  end.

Definition waitForDeploymentReady (namespace deployName : string) (timeout : Z)
  : M (option error) :=
  PollImmediate (5 * Second) timeout (readyCondition namespace deployName).

(** *** The handler ([main.go], the revision with the uniqueness suffix) *)

(** The three assignments of defaults at the head of the handler: the
    prefix "wp" when the deployment name is blank, 5 GB for a size that
    is not positive. *)
Definition withDefaults (payload : RequestPayload) : RequestPayload :=
  let deploymentName :=
    if Strings.TrimSpace (DeploymentName payload) =? "" then "wp"
    else DeploymentName payload in
  let persistence :=
    if (PersistenceDiskGB payload <=? 0)%Z then 5 else PersistenceDiskGB payload in
  let database :=
    if (DatabaseDiskGB payload <=? 0)%Z then 5 else DatabaseDiskGB payload in
  {| Kubeconfig := Kubeconfig payload;
     Namespace := Namespace payload;
     PersistenceDiskGB := persistence;
     DatabaseDiskGB := database;
     DeploymentName := deploymentName |}.

Definition handleCreateWordPress (r : Request) : M Response :=
  if negb (Method r =? "POST") then
    ret (fail StatusMethodNotAllowed "Only POST is allowed")
  else
    match Body r with
    | inl _ => ret (fail StatusBadRequest "Invalid JSON payload")
    | inr payload =>
      if Namespace payload =? "" then
        ret (fail StatusBadRequest "namespace is required")
      else
        let payload := withDefaults payload in
        s <- generateRandomSuffix 5 ;;
        match s with
        | inl _ =>
          ret (fail StatusInternalServerError "Could not generate unique suffix")
        | inr suffix =>
          check InitKubeClient (Kubeconfig payload)
            orelse (fun _ => fail StatusInternalServerError
                               "Could not initialize Kubernetes client") ;;
          let namespace := Namespace payload in
          check ensureNamespace namespace
            orelse (fun nsErr => fail StatusInternalServerError (Error nsErr)) ;;
          let dbPVName := buildResourceName (DeploymentName payload) "db-pv" suffix in
          let dbPVCName := buildResourceName (DeploymentName payload) "db-pvc" suffix in
          let dbDeploymentName := buildResourceName (DeploymentName payload) "db" suffix in
          let dbServiceName := buildResourceName (DeploymentName payload) "db-svc" suffix in
          let dbSecretName := buildResourceName (DeploymentName payload) "db-secret" suffix in
          let wpPVName := buildResourceName (DeploymentName payload) "wp-pv" suffix in
          let wpPVCName := buildResourceName (DeploymentName payload) "wp-pvc" suffix in
          let wpDeploymentName := buildResourceName (DeploymentName payload) "wp" suffix in
          let wpServiceName := buildResourceName (DeploymentName payload) "wp-svc" suffix in
          check createPersistentVolume namespace dbPVName
                  ("/mnt/data/" +:+ namespace +:+ "/" +:+ dbPVName +:+ "_data")
                  (DatabaseDiskGB payload)
            orelse (fun err => fail StatusInternalServerError
                                 ("Failed to create MySQL PV: " +:+ Error err)) ;;
          check createPersistentVolumeClaim namespace dbPVCName dbPVName (DatabaseDiskGB payload)
            orelse (fun err => fail StatusInternalServerError
                                 ("Failed to create MySQL PVC: " +:+ Error err)) ;;
          check createPersistentVolume namespace wpPVName
                  ("/mnt/data/" +:+ namespace +:+ "/" +:+ wpPVName +:+ "_data")
                  (PersistenceDiskGB payload)
            orelse (fun err => fail StatusInternalServerError
                                 ("Failed to create WordPress PV: " +:+ Error err)) ;;
          check createPersistentVolumeClaim namespace wpPVCName wpPVName (PersistenceDiskGB payload)
            orelse (fun err => fail StatusInternalServerError
                                 ("Failed to create WordPress PVC: " +:+ Error err)) ;;
          check createWPMySQLSecret namespace dbSecretName dbServiceName
            orelse (fun _ => fail StatusInternalServerError
                               "Failed to create MySQL/WordPress Secret") ;;
          check createMySQLDeployment namespace dbDeploymentName dbPVCName dbSecretName
            orelse (fun _ => fail StatusInternalServerError "Failed to create MySQL deployment") ;;
          check createMySQLService namespace dbServiceName dbDeploymentName
            orelse (fun _ => fail StatusInternalServerError "Failed to create MySQL service") ;;
          check waitForDeploymentReady namespace dbDeploymentName (120 * Second)
            orelse (fun _ => fail StatusInternalServerError
                               "MySQL deployment failed to become ready") ;;
          check createWordPressDeployment namespace wpDeploymentName wpPVCName dbSecretName
                  dbServiceName
            orelse (fun _ => fail StatusInternalServerError
                               "Failed to create WordPress deployment") ;;
          check createWordPressService namespace wpServiceName wpDeploymentName
            orelse (fun _ => fail StatusInternalServerError "Failed to create WordPress service") ;;
          check waitForDeploymentReady namespace wpDeploymentName (120 * Second)
            orelse (fun _ => fail StatusInternalServerError
                               "WordPress deployment failed to become ready") ;;
          let resources :=
            [ "Namespace: " +:+ namespace;
              "PV: " +:+ dbPVName;
              "PVC: " +:+ dbPVCName;
              "PV: " +:+ wpPVName;
              "PVC: " +:+ wpPVCName;
              "Secret: " +:+ dbSecretName;
              "MySQL Deployment: " +:+ dbDeploymentName;
              "MySQL Service: " +:+ dbServiceName;
              "WordPress Deployment: " +:+ wpDeploymentName;
              "WordPress Service: " +:+ wpServiceName ] in
          ret {| StatusCode := StatusOK;
                 Json := {| Success := true;
                            Message := "WordPress + MySQL stack created successfully. Strong random credentials have been set for MySQL.";
                            Resources := resources |} |}
        end
    end.

End Program.

(** ** The earlier revision of the handler ([main.go], first copy)

    No suffix, names are the prefix followed by the resource type, and a
    request without [deployment_name] is refused. *)

Module Earlier.
Section Program.

Variable env : Env.

Definition handleCreateWordPress (r : Request) : M Response :=
  if negb (Method r =? "POST") then
    ret (fail StatusMethodNotAllowed "Only POST is allowed")
  else
    match Body r with
    | inl _ => ret (fail StatusBadRequest "Invalid JSON payload")
    | inr payload =>
      if Namespace payload =? "" then
        ret (fail StatusBadRequest "namespace is required")
      else if DeploymentName payload =? "" then
        ret (fail StatusBadRequest "deployment_name is required")
      else
        let persistenceDiskGB :=
          if (PersistenceDiskGB payload <=? 0)%Z then 5 else PersistenceDiskGB payload in
        let databaseDiskGB :=
          if (DatabaseDiskGB payload <=? 0)%Z then 5 else DatabaseDiskGB payload in
        let namespace := Namespace payload in
        let deploymentName := DeploymentName payload in
        check InitKubeClient env (Kubeconfig payload)
          orelse (fun _ => fail StatusInternalServerError
                             "Could not initialize Kubernetes client") ;;
        check ensureNamespace env namespace
          orelse (fun nsErr => fail StatusInternalServerError (Error nsErr)) ;;
        let dbPVName := deploymentName +:+ "-db-pv" in
        let dbPVCName := deploymentName +:+ "-db-pvc" in
        check createPersistentVolume env namespace dbPVName
                ("/mnt/data/" +:+ namespace +:+ "/" +:+ deploymentName +:+ "_db")
                databaseDiskGB
          orelse (fun _ => fail StatusInternalServerError "Failed to create MySQL PV") ;;
        check createPersistentVolumeClaim env namespace dbPVCName dbPVName databaseDiskGB
          orelse (fun _ => fail StatusInternalServerError "Failed to create MySQL PVC") ;;
        let wpPVName := deploymentName +:+ "-wp-pv" in
        let wpPVCName := deploymentName +:+ "-wp-pvc" in
        check createPersistentVolume env namespace wpPVName
                ("/mnt/data/" +:+ namespace +:+ "/" +:+ deploymentName +:+ "_wordpress")
                persistenceDiskGB
          orelse (fun _ => fail StatusInternalServerError "Failed to create WordPress PV") ;;
        check createPersistentVolumeClaim env namespace wpPVCName wpPVName persistenceDiskGB
          orelse (fun _ => fail StatusInternalServerError "Failed to create WordPress PVC") ;;
        let dbSecretName := deploymentName +:+ "-db-secret" in
        check createWPMySQLSecret env namespace dbSecretName deploymentName
          orelse (fun _ => fail StatusInternalServerError
                             "Failed to create MySQL/WordPress Secret") ;;
        let dbDeploymentName := deploymentName +:+ "-db" in
        let dbServiceName := deploymentName +:+ "-db-svc" in
        check createMySQLDeployment env namespace dbDeploymentName dbPVCName dbSecretName
          orelse (fun _ => fail StatusInternalServerError
                             "Failed to create MySQL deployment") ;;
        check createMySQLService env namespace dbServiceName dbDeploymentName
          orelse (fun _ => fail StatusInternalServerError "Failed to create MySQL service") ;;
        check waitForDeploymentReady env namespace dbDeploymentName (120 * Second)
          orelse (fun _ => fail StatusInternalServerError
                             "MySQL deployment failed to become ready") ;;
        let wpDeploymentName := deploymentName +:+ "-wp" in
        let wpServiceName := deploymentName +:+ "-wp-svc" in
        check createWordPressDeployment env namespace wpDeploymentName wpPVCName
                dbSecretName dbServiceName
          orelse (fun _ => fail StatusInternalServerError
                             "Failed to create WordPress deployment") ;;
        check createWordPressService env namespace wpServiceName wpDeploymentName
          orelse (fun _ => fail StatusInternalServerError
                             "Failed to create WordPress service") ;;
        check waitForDeploymentReady env namespace wpDeploymentName (120 * Second)
          orelse (fun _ => fail StatusInternalServerError
                             "WordPress deployment failed to become ready") ;;
        let resources :=
          [ "Namespace: " +:+ namespace;
            "PV: " +:+ dbPVName;
            "PVC: " +:+ dbPVCName;
            "PV: " +:+ wpPVName;
            "PVC: " +:+ wpPVCName;
            "Secret: " +:+ dbSecretName;
            "MySQL Deployment: " +:+ dbDeploymentName;
            "MySQL Service: " +:+ dbServiceName;
            "WordPress Deployment: " +:+ wpDeploymentName;
            "WordPress Service: " +:+ wpServiceName ] in
        ret {| StatusCode := StatusOK;
               Json := {| Success := true;
                          Message := "WordPress + MySQL stack created successfully. Strong random credentials have been set for MySQL.";
                          Resources := resources |} |}
    end.

End Program.
End Earlier.

(** ** Concrete worlds, used to run the program *)

Module World.

Definition refused : error := mkError StatusReasonForbidden "forbidden".
Definition missing : error := mkError StatusReasonNotFound "not found".
Definition ready : appsv1.DeploymentStatus :=
  {| appsv1.ReadyReplicas := 1; appsv1.Replicas := 1 |}.
Definition starting : appsv1.DeploymentStatus :=
  {| appsv1.ReadyReplicas := 0; appsv1.Replicas := 1 |}.

(** Everything works: the k-th event of the history draws k (so the
    suffix of a fresh request is "abcde"), the entropy bytes are all
    zero, every call succeeds and deployments are ready when asked. *)
Definition calm : Env := {|
  env_randInt := fun h _ => inr (Z.of_nat (length h));
  env_randRead := fun _ => inr (fun _ => Ascii.zero);
  env_kubeClient := fun _ _ => None;
  env_parseQuantity := fun _ => None;
  env_api := fun _ _ => None;
  env_status := fun _ _ _ => ready |}.

Definition post (namespace deploymentName : string) : Request :=
  {| Method := "POST";
     Body := inr {| Kubeconfig := ""; Namespace := namespace;
                    PersistenceDiskGB := 0; DatabaseDiskGB := 0;
                    DeploymentName := deploymentName |} |}.

(** The namespace lookup is refused (not a not-found answer); everything
    else works. *)
Definition forbidding : Env := {|
  env_randInt := fun h _ => inr (Z.of_nat (length h));
  env_randRead := fun _ => inr (fun _ => Ascii.zero);
  env_kubeClient := fun _ _ => None;
  env_parseQuantity := fun _ => None;
  env_api := fun _ c => match c with NamespacesGet _ => Some refused | _ => None end;
  env_status := fun _ _ _ => ready |}.

(** Fetching a deployment fails while the history is shorter than [n]
    events, and reports a ready replica afterwards. *)
Definition flaky (n : nat) : Env := {|
  env_randInt := fun h _ => inr (Z.of_nat (length h));
  env_randRead := fun _ => inr (fun _ => Ascii.zero);
  env_kubeClient := fun _ _ => None;
  env_parseQuantity := fun _ => None;
  env_api := fun h c =>
    match c with
    | DeploymentsGet _ _ => if (length h <? n)%nat then Some refused else None
    | _ => None
    end;
  env_status := fun _ _ _ => ready |}.

(** The cluster refuses every volume claim; everything else works. *)
Definition noClaims : Env := {|
  env_randInt := fun h _ => inr (Z.of_nat (length h));
  env_randRead := fun _ => inr (fun _ => Ascii.zero);
  env_kubeClient := fun _ _ => None;
  env_parseQuantity := fun _ => None;
  env_api := fun _ c =>
    match c with PersistentVolumeClaimsCreate _ _ => Some refused | _ => None end;
  env_status := fun _ _ _ => ready |}.

(** The entropy source fails; everything else works. *)
Definition noEntropy : Env := {|
  env_randInt := fun _ _ => inl (mkError StatusReasonUnknown "entropy");
  env_randRead := fun _ => inl (mkError StatusReasonUnknown "entropy");
  env_kubeClient := fun _ _ => None;
  env_parseQuantity := fun _ => None;
  env_api := fun _ _ => None;
  env_status := fun _ _ _ => ready |}.

(** A prefix of 64 bytes. *)
Definition longPrefix : string :=
  "xxxxxxxxxxxxxxxxxxxxxxxxxxxxxxxxxxxxxxxxxxxxxxxxxxxxxxxxxxxxxxxx".

End World.

(** ** Vocabulary of the properties *)

(** The budget of the prefix, as the code computes it. *)
Definition prefixBudget (resourceType : string) : Z :=
  Z.max 0 (60 - (len resourceType + 5 + 2)).

(** Whether the answer to a status poll shows a ready replica. *)
Definition readyAnswer (a : Answer) : bool :=
  match a with
  | Status st => (appsv1.ReadyReplicas st >=? 1)%Z
  | _ => false
  end.

(** The events of a poll loop that got the given answers: one fetch per
    answer, one wait between two fetches. *)
Fixpoint pollSchedule (namespace name : string) (interval : Z) (answers : list Answer)
    : Trace :=
  match answers with
  | [] => []
  | a :: rest =>
    (DeploymentsGet namespace name, a) ::
    match rest with
    | [] => []
    | _ :: _ => (Sleep interval, Done) :: pollSchedule namespace name interval rest
    end
  end.

(** The three pairs of entries of the secret that must agree. *)
Definition consistentSecret (s : corev1.Secret) : Prop :=
  let d := corev1.secret_Data s in
  (exists wpPass : string,
      d !! "WORDPRESS_DB_PASSWORD" = Some wpPass /\ d !! "MYSQL_PASSWORD" = Some wpPass)
  /\ d !! "WORDPRESS_DB_USER" = Some "wordpress"
  /\ d !! "MYSQL_USER" = Some "wordpress"
  /\ d !! "WORDPRESS_DB_NAME" = Some "wordpressdb"
  /\ d !! "MYSQL_DATABASE" = Some "wordpressdb".

(** *** The pipeline as a list of stages

    A stage is a step that may fail, with the response the handler sends
    when it does.  [runStages] is the chain of
    [if err != nil { respond; return }] that the handler spells out; the
    handler is shown below to be this chain over [stagesOf]. *)

Definition Stage : Type := M (option error) * (error -> Response).

Fixpoint runStages (stages : list Stage) (success : Response) : M Response :=
  match stages with
  | [] => ret success
  | (step, onError) :: stages' =>
    check step orelse onError ;; runStages stages' success
  end.

(** Started after history [h], the stages all return nil and emit [w]. *)
Inductive StagesSucceed : Trace -> list Stage -> Trace -> Prop :=
| succeed_nil (h : Trace) : StagesSucceed h [] []
| succeed_cons (h : Trace) (s : Stage) (stages : list Stage) (w1 w2 : Trace) :
    fst s h = (None, w1) ->
    StagesSucceed (h ++ w1) stages w2 ->
    StagesSucceed h (s :: stages) (w1 ++ w2).

Record Names := {
  dbPVName : string; dbPVCName : string; dbDeploymentName : string;
  dbServiceName : string; dbSecretName : string;
  wpPVName : string; wpPVCName : string; wpDeploymentName : string;
  wpServiceName : string }.

Definition namesOf (prefix suffix : string) : Names := {|
  dbPVName := buildResourceName prefix "db-pv" suffix;
  dbPVCName := buildResourceName prefix "db-pvc" suffix;
  dbDeploymentName := buildResourceName prefix "db" suffix;
  dbServiceName := buildResourceName prefix "db-svc" suffix;
  dbSecretName := buildResourceName prefix "db-secret" suffix;
  wpPVName := buildResourceName prefix "wp-pv" suffix;
  wpPVCName := buildResourceName prefix "wp-pvc" suffix;
  wpDeploymentName := buildResourceName prefix "wp" suffix;
  wpServiceName := buildResourceName prefix "wp-svc" suffix |}.

(** The steps of the handler that follow the generation of the suffix, in
    the order of the source, for a payload whose defaults are filled in. *)
Definition stagesOf (env : Env) (payload : RequestPayload) (suffix : string)
    : list Stage :=
  let namespace := Namespace payload in
  let n := namesOf (DeploymentName payload) suffix in
  let oops := fail StatusInternalServerError in
  [ (InitKubeClient env (Kubeconfig payload),
     fun _ => oops "Could not initialize Kubernetes client");
    (ensureNamespace env namespace,
     fun nsErr => oops (Error nsErr));
    (createPersistentVolume env namespace (dbPVName n)
       ("/mnt/data/" +:+ namespace +:+ "/" +:+ dbPVName n +:+ "_data")
       (DatabaseDiskGB payload),
     fun err => oops ("Failed to create MySQL PV: " +:+ Error err));
    (createPersistentVolumeClaim env namespace (dbPVCName n) (dbPVName n)
       (DatabaseDiskGB payload),
     fun err => oops ("Failed to create MySQL PVC: " +:+ Error err));
    (createPersistentVolume env namespace (wpPVName n)
       ("/mnt/data/" +:+ namespace +:+ "/" +:+ wpPVName n +:+ "_data")
       (PersistenceDiskGB payload),
     fun err => oops ("Failed to create WordPress PV: " +:+ Error err));
    (createPersistentVolumeClaim env namespace (wpPVCName n) (wpPVName n)
       (PersistenceDiskGB payload),
     fun err => oops ("Failed to create WordPress PVC: " +:+ Error err));
    (createWPMySQLSecret env namespace (dbSecretName n) (dbServiceName n),
     fun _ => oops "Failed to create MySQL/WordPress Secret");
    (createMySQLDeployment env namespace (dbDeploymentName n) (dbPVCName n)
       (dbSecretName n),
     fun _ => oops "Failed to create MySQL deployment");
    (createMySQLService env namespace (dbServiceName n) (dbDeploymentName n),
     fun _ => oops "Failed to create MySQL service");
    (waitForDeploymentReady env namespace (dbDeploymentName n) (120 * Second),
     fun _ => oops "MySQL deployment failed to become ready");
    (createWordPressDeployment env namespace (wpDeploymentName n) (wpPVCName n)
       (dbSecretName n) (dbServiceName n),
     fun _ => oops "Failed to create WordPress deployment");
    (createWordPressService env namespace (wpServiceName n) (wpDeploymentName n),
     fun _ => oops "Failed to create WordPress service");
    (waitForDeploymentReady env namespace (wpDeploymentName n) (120 * Second),
     fun _ => oops "WordPress deployment failed to become ready") ].

(** The summary of a request that went through. *)
Definition summary (payload : RequestPayload) (suffix : string) : Response :=
  let n := namesOf (DeploymentName payload) suffix in
  {| StatusCode := StatusOK;
     Json := {|
       Success := true;
       Message := "WordPress + MySQL stack created successfully. Strong random credentials have been set for MySQL.";
       Resources :=
         [ "Namespace: " +:+ Namespace payload;
           "PV: " +:+ dbPVName n;
           "PVC: " +:+ dbPVCName n;
           "PV: " +:+ wpPVName n;
           "PVC: " +:+ wpPVCName n;
           "Secret: " +:+ dbSecretName n;
           "MySQL Deployment: " +:+ dbDeploymentName n;
           "MySQL Service: " +:+ dbServiceName n;
           "WordPress Deployment: " +:+ wpDeploymentName n;
           "WordPress Service: " +:+ wpServiceName n ] |} |}.

(** *** Order of events *)






(** *** What a trace says about the database endpoint *)

(** The names of the services created for MySQL (port name "mysql"). *)
Definition mysqlServiceNames (w : Trace) : list string :=
  flat_map (fun e : Event =>
              match fst e with
              | ServicesCreate _ s =>
                if corev1.svc_PortName s =? "mysql" then [corev1.svc_Name s] else []
              | _ => []
              end) w.

(** The database hosts written to the secrets created. *)
Definition secretHosts (w : Trace) : list (option string) :=
  flat_map (fun e : Event =>
              match fst e with
              | SecretsCreate _ s => [corev1.secret_Data s !! "WORDPRESS_DB_HOST"]
              | _ => []
              end) w.

(** The payload with another [deployment_name]. *)
Definition withDeploymentName (payload : RequestPayload) (name : string)
    : RequestPayload :=
  {| Kubeconfig := Kubeconfig payload;
     Namespace := Namespace payload;
     PersistenceDiskGB := PersistenceDiskGB payload;
     DatabaseDiskGB := DatabaseDiskGB payload;
     DeploymentName := name |}.

(** *** Vocabulary of the further properties *)

(** Every byte of [s] is a byte of [alphabet]. *)
Definition inAlphabet (alphabet s : string) : Prop :=
  Forall (fun c => In c (list_ascii_of_string alphabet)) (list_ascii_of_string s).

(** The event of a successful draw of a suffix index. *)
Definition drawn (z : Z) : Event := (RandInt (len suffixChars), Drawn z).

(** Every byte of [s] is one of the six ASCII white-space characters. *)
Definition asciiBlank (s : string) : Prop :=
  Forall (fun c => Strings.asciiSpace c = true) (list_ascii_of_string s).

(** The kinds of objects the handler creates. *)
Inductive Kind :=
| KNamespace | KPersistentVolume | KPersistentVolumeClaim
| KSecret | KDeployment | KService.

(** The object a create call submits: its kind and its name. *)
Definition createdObject (c : Call) : option (Kind * string) :=
  match c with
  | NamespacesCreate ns => Some (KNamespace, corev1.ns_Name ns)
  | PersistentVolumesCreate pv => Some (KPersistentVolume, corev1.pv_Name pv)
  | PersistentVolumeClaimsCreate _ pvc =>
    Some (KPersistentVolumeClaim, corev1.pvc_Name pvc)
  | SecretsCreate _ s => Some (KSecret, corev1.secret_Name s)
  | DeploymentsCreate _ d => Some (KDeployment, appsv1.d_Name d)
  | ServicesCreate _ s => Some (KService, corev1.svc_Name s)
  | _ => None
  end.

(** The objects created in a trace, in order: the create calls that the
    cluster answered without error. *)
Definition creations (w : Trace) : list (Kind * string) :=
  flat_map (fun e : Event =>
              match createdObject (fst e), snd e with
              | Some o, Done => [o]
              | _, _ => []
              end) w.

(** The create calls of a trace that the cluster refused. *)
Definition refusals (w : Trace) : list (Kind * string) :=
  flat_map (fun e : Event =>
              match createdObject (fst e), snd e with
              | Some o, Failed _ => [o]
              | _, _ => []
              end) w.

(** The creation of the WordPress workload. *)
Definition isWordPressCreate (e : Event) : bool :=
  match fst e with
  | DeploymentsCreate _ d => corev1.c_Name (appsv1.d_Container d) =? "wordpress"
  | _ => false
  end.

(** The creation of the MySQL workload. *)
Definition isMySQLCreate (e : Event) : bool :=
  match fst e with
  | DeploymentsCreate _ d => corev1.c_Name (appsv1.d_Container d) =? "mysql"
  | _ => false
  end.

(** A status fetch that shows a ready replica. *)
Definition isReadyPoll (e : Event) : bool :=
  match fst e with
  | DeploymentsGet _ _ => readyAnswer (snd e)
  | _ => false
  end.

(** The name of the deployment a ready status fetch asked for. *)
Definition readyPollOf (e : Event) : option string :=
  match e with
  | (DeploymentsGet _ name, Status st) =>
    if (appsv1.ReadyReplicas st >=? 1)%Z then Some name else None
  | _ => None
  end.

(** *** The events of a run that went through *)

(** The objects submitted up to the MySQL service, and those of the
    application tier. *)
Record DatabaseTier := {
  made_pvDb : corev1.PersistentVolume;
  made_pvcDb : corev1.PersistentVolumeClaim;
  made_pvWp : corev1.PersistentVolume;
  made_pvcWp : corev1.PersistentVolumeClaim;
  made_secret : corev1.Secret;
  made_dDb : appsv1.Deployment;
  made_sDb : corev1.Service }.

Record AppTier := {
  made_dWp : appsv1.Deployment;
  made_sWp : corev1.Service }.

(** The events of the namespace step when it succeeds: the lookup found
    the namespace, or it failed and the creation went through. *)
Definition namespaceEvents (namespace : string) (w : Trace) : Prop :=
  w = [(NamespacesGet namespace, Done)]
  \/ exists e, w = [(NamespacesGet namespace, Failed e);
                    (NamespacesCreate {| corev1.ns_Name := namespace |}, Done)].

(** The events of a poll loop that ended well: fetches and waits, the
    last fetch showing a ready replica of the deployment. *)
Definition readyPolls (namespace name : string) (w : Trace) : Prop :=
  exists (answers : list Answer) (final : Answer),
    w = pollSchedule namespace name (5 * Second) (answers ++ [final])
    /\ readyAnswer final = true.

(** From the client to the database being ready. *)
Definition databaseTrace (kubeconfig namespace : string) (nsw : Trace)
    (o : DatabaseTier) (b1 b2 : string) (polls : Trace) : Trace :=
  [(KubeClient kubeconfig, Done)] ++ nsw
  ++ [ (PersistentVolumesCreate (made_pvDb o), Done);
       (PersistentVolumeClaimsCreate namespace (made_pvcDb o), Done);
       (PersistentVolumesCreate (made_pvWp o), Done);
       (PersistentVolumeClaimsCreate namespace (made_pvcWp o), Done);
       (RandRead 16, Filled b1);
       (RandRead 16, Filled b2);
       (SecretsCreate namespace (made_secret o), Done);
       (DeploymentsCreate namespace (made_dDb o), Done);
       (ServicesCreate namespace (made_sDb o), Done) ]
  ++ polls.

(** From the WordPress workload to its being ready. *)
Definition appTrace (namespace : string) (a : AppTier) (polls : Trace) : Trace :=
  [ (DeploymentsCreate namespace (made_dWp a), Done);
    (ServicesCreate namespace (made_sWp a), Done) ] ++ polls.

(** How the objects of the database tier and the volumes are filled in. *)
Definition databaseWired (namespace : string) (n : Names) (dbSize wpSize : Z)
    (o : DatabaseTier) : Prop :=
  (corev1.pv_Name (made_pvDb o) = dbPVName n
   /\ corev1.pv_Labels (made_pvDb o) = {[ "app" := dbPVName n ]}
   /\ corev1.pv_Capacity (made_pvDb o) = Sprintf_d dbSize +:+ "Gi"
   /\ corev1.pv_HostPath (made_pvDb o)
      = "/mnt/data/" +:+ namespace +:+ "/" +:+ dbPVName n +:+ "_data")
  /\ (corev1.pvc_Name (made_pvcDb o) = dbPVCName n
      /\ corev1.pvc_Namespace (made_pvcDb o) = namespace
      /\ corev1.pvc_Selector (made_pvcDb o) = {[ "app" := dbPVName n ]}
      /\ corev1.pvc_Requests (made_pvcDb o) = Sprintf_d dbSize +:+ "Gi")
  /\ (corev1.pv_Name (made_pvWp o) = wpPVName n
      /\ corev1.pv_Labels (made_pvWp o) = {[ "app" := wpPVName n ]}
      /\ corev1.pv_Capacity (made_pvWp o) = Sprintf_d wpSize +:+ "Gi"
      /\ corev1.pv_HostPath (made_pvWp o)
         = "/mnt/data/" +:+ namespace +:+ "/" +:+ wpPVName n +:+ "_data")
  /\ (corev1.pvc_Name (made_pvcWp o) = wpPVCName n
      /\ corev1.pvc_Namespace (made_pvcWp o) = namespace
      /\ corev1.pvc_Selector (made_pvcWp o) = {[ "app" := wpPVName n ]}
      /\ corev1.pvc_Requests (made_pvcWp o) = Sprintf_d wpSize +:+ "Gi")
  /\ (corev1.secret_Name (made_secret o) = dbSecretName n
      /\ corev1.secret_Namespace (made_secret o) = namespace)
  /\ (appsv1.d_Name (made_dDb o) = dbDeploymentName n
      /\ appsv1.d_Selector (made_dDb o) = {[ "app" := dbDeploymentName n ]}
      /\ appsv1.d_TemplateLabels (made_dDb o) = {[ "app" := dbDeploymentName n ]}
      /\ appsv1.d_ClaimName (made_dDb o) = dbPVCName n
      /\ corev1.c_EnvFromSecret (appsv1.d_Container (made_dDb o)) = dbSecretName n
      /\ corev1.c_Name (appsv1.d_Container (made_dDb o)) = "mysql")
  /\ (corev1.svc_Name (made_sDb o) = dbServiceName n
      /\ corev1.svc_Selector (made_sDb o) = {[ "app" := dbDeploymentName n ]}
      /\ corev1.svc_Port (made_sDb o) = 3306).

(** How the objects of the application tier are filled in. *)
Definition appWired (n : Names) (a : AppTier) : Prop :=
  (appsv1.d_Name (made_dWp a) = wpDeploymentName n
   /\ appsv1.d_Selector (made_dWp a) = {[ "app" := wpDeploymentName n ]}
   /\ appsv1.d_TemplateLabels (made_dWp a) = {[ "app" := wpDeploymentName n ]}
   /\ appsv1.d_ClaimName (made_dWp a) = wpPVCName n
   /\ corev1.c_EnvFromSecret (appsv1.d_Container (made_dWp a)) = dbSecretName n
   /\ corev1.c_Name (appsv1.d_Container (made_dWp a)) = "wordpress")
  /\ (corev1.svc_Name (made_sWp a) = wpServiceName n
      /\ corev1.svc_Selector (made_sWp a) = {[ "app" := wpDeploymentName n ]}
      /\ corev1.svc_Port (made_sWp a) = 80).


(** The claim asks for the volume: its selector is the label of the
    volume and it requests the capacity of the volume. *)
Definition claimBinds (pvc : corev1.PersistentVolumeClaim) (pv : corev1.PersistentVolume)
    : Prop :=
  corev1.pvc_Selector pvc = corev1.pv_Labels pv
  /\ corev1.pvc_Requests pvc = corev1.pv_Capacity pv.

(** The service selects the pods of the deployment, and so does the
    deployment itself. *)
Definition serviceSelects (s : corev1.Service) (d : appsv1.Deployment) : Prop :=
  corev1.svc_Selector s = appsv1.d_TemplateLabels d
  /\ appsv1.d_Selector d = appsv1.d_TemplateLabels d.

(** The namespaces a call mentions: the one it is addressed to and the one
    written in the object it submits. *)
Definition namespacesOf (c : Call) : list string :=
  match c with
  | NamespacesGet name => [name]
  | NamespacesCreate ns => [corev1.ns_Name ns]
  | PersistentVolumeClaimsCreate n pvc => [n; corev1.pvc_Namespace pvc]
  | SecretsCreate n s => [n; corev1.secret_Namespace s]
  | DeploymentsCreate n d => [n; appsv1.d_Namespace d]
  | ServicesCreate n s => [n; corev1.svc_Namespace s]
  | DeploymentsGet n _ => [n]
  | _ => []
  end.

(** The quantity of storage a call asks for. *)
Definition requestedStorage (c : Call) : option string :=
  match c with
  | PersistentVolumesCreate pv => Some (corev1.pv_Capacity pv)
  | PersistentVolumeClaimsCreate _ pvc => Some (corev1.pvc_Requests pvc)
  | _ => None
  end.

(** * Properties *)

(** ** Strings *)

Section StringFacts.

Lemma length_app_string (a b : string) :
  String.length (a +:+ b) = (String.length a + String.length b)%nat.
Proof. induction a as [|c a IH]; simpl; [reflexivity | now rewrite IH]. Qed.

Lemma len_app (a b : string) : len (a +:+ b) = len a + len b.
Proof. unfold len. rewrite length_app_string. lia. Qed.

Lemma len_nonneg (s : string) : 0 <= len s.
Proof. unfold len. lia. Qed.

Lemma substring_all (s : string) (n : nat) :
  (String.length s <= n)%nat -> substring 0 n s = s.
Proof.
  revert n. induction s as [|c s IH]; intros [|n] H; simpl in *;
    try reflexivity; try lia.
  f_equal. apply IH. lia.
Qed.

Lemma length_substring_0 (s : string) (n : nat) :
  String.length (substring 0 n s) = Nat.min n (String.length s).
Proof.
  revert n. induction s as [|c s IH]; intros [|n]; simpl; try reflexivity.
  now rewrite IH.
Qed.

Lemma length_of_bytes (l : list ascii) :
  String.length (of_bytes l) = length l.
Proof. induction l as [|c l IH]; simpl; [reflexivity | now rewrite IH]. Qed.

(** Truncation under the guard of the source is truncation. *)
Lemma guarded_slice (s : string) (n : Z) :
  0 <= n ->
  (if (len s >? n)%Z then slice_to s n else s) = substring 0 (Z.to_nat n) s.
Proof.
  intros Hn. unfold slice_to, len.
  destruct (Z.gtb_spec (Z.of_nat (String.length s)) n) as [Hgt|Hle].
  - reflexivity.
  - symmetry. apply substring_all. lia.
Qed.

End StringFacts.

(** ** Resource names *)

(** The prefix that survives the guard and the slice of the source. *)
Lemma kept_prefix (prefix resourceType : string) :
  (let allowed := 60 - (len resourceType + 5 + 2) in
   let allowed := if (allowed <? 0)%Z then 0 else allowed in
   if (len prefix >? allowed)%Z then slice_to prefix allowed else prefix)
  = substring 0 (Z.to_nat (prefixBudget resourceType)) prefix.
Proof.
  unfold prefixBudget. cbv zeta.
  set (a := 60 - (len resourceType + 5 + 2)).
  assert (Hmax : (if (a <? 0)%Z then 0 else a) = Z.max 0 a).
  { destruct (Z.ltb_spec a 0); lia. }
  rewrite Hmax, guarded_slice by lia. reflexivity.
Qed.

Lemma buildResourceName_truncates_prefix_aux (prefix resourceType suffix : string) :
  buildResourceName prefix resourceType suffix
  = substring 0 (Z.to_nat (prefixBudget resourceType)) prefix
    +:+ "-" +:+ suffix +:+ "-" +:+ resourceType.
Proof.
  unfold buildResourceName. cbv zeta.
  now rewrite <- (kept_prefix prefix resourceType).
Qed.

(** C3 (as amended): for every prefix, resource type and suffix,
    [buildResourceName] returns the prefix cut to
    [max(0, 60 - (len(resourceType) + 5 + 2))] bytes, then a dash, the
    suffix, a dash and the resource type.  The budget counts the suffix
    for the constant 5, whatever its length. *)
Theorem buildResourceName_truncates_prefix (prefix resourceType suffix : string) :
  buildResourceName prefix resourceType suffix
  = substring 0 (Z.to_nat (prefixBudget resourceType)) prefix
    +:+ "-" +:+ suffix +:+ "-" +:+ resourceType.
Proof.
  unfold buildResourceName. cbv zeta.
  now rewrite <- (kept_prefix prefix resourceType).
Qed.

(** With a suffix of five bytes the code and the rule of the
    specification agree. *)
Lemma buildResourceName_spec_suffix5 (prefix resourceType suffix : string) :
  String.length suffix = 5%nat ->
  buildResourceName prefix resourceType suffix = buildName_spec prefix resourceType suffix.
Proof.
  intros H5. unfold buildResourceName. cbv zeta.
  change (if (len prefix >? _)%Z then _ else _)
    with (let allowed := 60 - (len resourceType + 5 + 2) in
          let allowed := if (allowed <? 0)%Z then 0 else allowed in
          if (len prefix >? allowed)%Z then slice_to prefix allowed else prefix).
  rewrite kept_prefix.
  unfold buildName_spec, prefixBudget, len. rewrite H5. reflexivity.
Qed.

(** C3, as stated, fails: with a suffix of eight bytes the code keeps 51
    bytes of a long prefix where the stated rule keeps 48, and the name has
    63 bytes. *)
Lemma buildResourceName_ignores_suffix_length :
  buildResourceName World.longPrefix "db" "abcdefgh"
    <> buildName_spec World.longPrefix "db" "abcdefgh"
  /\ len (buildResourceName World.longPrefix "db" "abcdefgh") = 63
  /\ len (buildName_spec World.longPrefix "db" "abcdefgh") = 60.
Proof. vm_compute. repeat split; discriminate. Qed.

Lemma len_buildResourceName (prefix resourceType suffix : string) :
  len (buildResourceName prefix resourceType suffix)
  = Z.min (prefixBudget resourceType) (len prefix) + len suffix + len resourceType + 2.
Proof.
  unfold buildResourceName. cbv zeta.
  change (if (len prefix >? _)%Z then _ else _)
    with (let allowed := 60 - (len resourceType + 5 + 2) in
          let allowed := if (allowed <? 0)%Z then 0 else allowed in
          if (len prefix >? allowed)%Z then slice_to prefix allowed else prefix).
  rewrite kept_prefix.
  rewrite !len_app. unfold len at 1. rewrite length_substring_0.
  assert (0 <= prefixBudget resourceType) by (unfold prefixBudget; lia).
  change (len "-") with 1. unfold len. lia.
Qed.

(** The suffix loop fills a slice without changing its length. *)
Lemma suffixLoop_length (env : Env) (todo i : nat) (result : list ascii)
    (h w : Trace) (s : string) :
  suffixLoop env todo i result h = (inr s, w) ->
  String.length s = length result.
Proof.
  revert i result h w. induction todo as [|todo IH]; intros i result h w; simpl.
  - unfold ret. intros [= <- _]. apply length_of_bytes.
  - unfold bind, rand_Int. destruct (env_randInt env h (len suffixChars)) as [e|z].
    + unfold ret. discriminate.
    + destruct (suffixLoop env todo (S i) _ _) as [r w'] eqn:E.
      intros [= -> _]. apply IH in E. now rewrite E, length_insert.
Qed.

Lemma generateRandomSuffix_length (env : Env) (n : nat) (h w : Trace) (s : string) :
  generateRandomSuffix env n h = (inr s, w) -> String.length s = n.
Proof.
  unfold generateRandomSuffix. intros E. apply suffixLoop_length in E.
  now rewrite E, length_replicate.
Qed.

(** C7: for every prefix of 0 to 1000 bytes, every resource type of the
    pipeline and every suffix of five bytes, the name built has at most 60
    bytes; and whatever [generateRandomSuffix(5)] returns without error has
    five bytes. *)
Theorem buildResourceName_at_most_60 :
  (forall prefix resourceType suffix : string,
      (String.length prefix <= 1000)%nat ->
      In resourceType resourceTypes ->
      String.length suffix = 5%nat ->
      len (buildResourceName prefix resourceType suffix) <= 60)
  /\ (forall (env : Env) (h w : Trace) (suffix : string),
        generateRandomSuffix env 5 h = (inr suffix, w) ->
        String.length suffix = 5%nat).
Proof.
  split.
  - intros prefix resourceType suffix _ Hin H5.
    rewrite len_buildResourceName.
    assert (Hrt : len resourceType <= 9).
    { simpl in Hin.
      repeat (destruct Hin as [<- | Hin]; [vm_compute; discriminate|]).
      destruct Hin. }
    assert (Hs : len suffix = 5) by (unfold len; now rewrite H5).
    pose proof (len_nonneg resourceType). unfold prefixBudget. lia.
  - intros env h w suffix. apply generateRandomSuffix_length.
Qed.

Lemma buildResourceName_at_most_60_witness :
  len (buildResourceName World.longPrefix "db-secret" "abcde") <= 60
  /\ String.length "abcde" = 5%nat.
Proof.
  split.
  - apply (proj1 buildResourceName_at_most_60).
    + vm_compute. lia.
    + simpl. tauto.
    + reflexivity.
  - apply (proj2 buildResourceName_at_most_60 World.calm [] (snd (generateRandomSuffix World.calm 5 []))).
    reflexivity.
Defined.

(** ** The password alphabet *)

Lemma index_in_range (b : ascii) :
  0 <= byte_val b mod (len passwordChars mod 256) < len passwordChars.
Proof. change (len passwordChars) with 75. change (75 mod 256) with 75. apply Z.mod_pos_bound. lia. Qed.

Lemma suffix_index_in_range (z : Z) :
  0 <= z mod len suffixChars < len suffixChars.
Proof. apply Z.mod_pos_bound. reflexivity. Qed.

(** C9 (the code departs from the claim): the alphabet has 75 distinct
    characters and 256 is not a multiple of 75; the characters at positions
    0..30 have four preimages each among the 256 byte values, those at
    positions 31..74 have three. *)
Theorem passwordChar_preimages_uneven :
  len passwordChars = 75
  /\ NoDup (list_ascii_of_string passwordChars)
  /\ Forall (fun i => length (preimages (index passwordChars i))
                      = if (i <? 31)%Z then 4%nat else 3%nat)
            (map Z.of_nat (seq 0 75))
  /\ length (preimages "A") = 4%nat
  /\ length (preimages "f") = 3%nat.
Proof.
  split; [reflexivity|]. split.
  - apply (bool_decide_unpack _). vm_compute. reflexivity.
  - split; [|split; vm_compute; reflexivity].
    apply (bool_decide_unpack _). vm_compute. reflexivity.
Qed.

(** ** The namespace *)

(** C2 (as amended): [ensureNamespace] first gets the namespace; if the get
    succeeds it makes no create call and returns nil; if the get fails, for
    whatever reason, it issues one create call and returns nil when the
    create succeeds and the wrapped error of the create otherwise. *)
Theorem ensureNamespace_get_then_create (env : Env) (namespace : string) (h : Trace) :
  let get := NamespacesGet namespace in
  let create := NamespacesCreate {| corev1.ns_Name := namespace |} in
  match env_api env h get with
  | None => ensureNamespace env namespace h = (None, [(get, Done)])
  | Some e =>
    let c := env_api env (h ++ [(get, Failed e)]) create in
    ensureNamespace env namespace h
    = (option_map (Errorf ("unable to create namespace " +:+ namespace +:+ ": ")) c,
       [(get, Failed e); (create, answer_of_err c)])
  end.
Proof.
  cbv zeta. unfold ensureNamespace, bind, api, ret.
  destruct (env_api env h (NamespacesGet namespace)) as [e|]; simpl; [|reflexivity].
  destruct (env_api env _ (NamespacesCreate _)); reflexivity.
Qed.

(** C2, as stated, fails: a lookup that is refused (an error other than
    not-found) is followed by a create call, and the function returns nil. *)
Lemma ensureNamespace_creates_after_refused_get :
  Reason World.refused <> StatusReasonNotFound
  /\ env_api World.forbidding [] (NamespacesGet "demo") = Some World.refused
  /\ ensureNamespace World.forbidding "demo" []
     = (None, [(NamespacesGet "demo", Failed World.refused);
               (NamespacesCreate {| corev1.ns_Name := "demo" |}, Done)]).
Proof. repeat split; [discriminate]. Qed.

(** ** The secret *)

Lemma secretData_consistent (rootPass wpPass deployName namespace name type : string) :
  consistentSecret {| corev1.secret_Name := name;
                      corev1.secret_Namespace := namespace;
                      corev1.secret_Type := type;
                      corev1.secret_Data := secretData rootPass wpPass deployName |}.
Proof.
  unfold consistentSecret, secretData; simpl.
  split; [exists wpPass; split|repeat split]; by simplify_map_eq.
Qed.

Lemma secretData_host (rootPass wpPass deployName : string) :
  secretData rootPass wpPass deployName !! "WORDPRESS_DB_HOST"
  = Some (deployName +:+ "-db-svc").
Proof. unfold secretData. by simplify_map_eq. Qed.

(** C10: every secret that [createWPMySQLSecret] submits holds the same
    password under WORDPRESS_DB_PASSWORD and MYSQL_PASSWORD, "wordpress"
    under WORDPRESS_DB_USER and MYSQL_USER, and "wordpressdb" under
    WORDPRESS_DB_NAME and MYSQL_DATABASE. *)
Theorem createWPMySQLSecret_consistent (env : Env)
    (namespace secretName deployName : string) (h : Trace)
    (ns : string) (s : corev1.Secret) (a : Answer) :
  In (SecretsCreate ns s, a)
     (snd (createWPMySQLSecret env namespace secretName deployName h)) ->
  consistentSecret s.
Proof.
  unfold createWPMySQLSecret, generateRandomPassword, bind, rand_Read, api, ret.
  destruct (env_randRead env h) as [e|f]; simpl.
  - intros [[=]|[]].
  - destruct (env_randRead env _) as [e|g]; simpl.
    + intros [[=]|[[=]|[]]].
    + destruct (env_api env _ _); simpl;
        (intros [[=]|[[=]|[[= <- <- _]|[]]]]); apply secretData_consistent.
Qed.

Lemma createWPMySQLSecret_consistent_witness :
  consistentSecret
    {| corev1.secret_Name := "site-abcde-db-secret";
       corev1.secret_Namespace := "demo";
       corev1.secret_Type := "Opaque";
       corev1.secret_Data :=
         secretData "AAAAAAAAAAAAAAAA" "AAAAAAAAAAAAAAAA" "site-abcde-db-svc" |}.
Proof.
  apply (createWPMySQLSecret_consistent World.calm "demo" "site-abcde-db-secret"
           "site-abcde-db-svc" [] "demo" _ Done).
  vm_compute. right. right. left. reflexivity.
Defined.

(** ** The readiness poll *)

Lemma pollSchedule_cons (namespace name : string) (interval : Z) (a : Answer)
    (rest : list Answer) :
  rest <> [] ->
  pollSchedule namespace name interval (a :: rest)
  = (DeploymentsGet namespace name, a) :: (Sleep interval, Done)
      :: pollSchedule namespace name interval rest.
Proof. destruct rest; [congruence | reflexivity]. Qed.

(** One evaluation of the condition: one fetch, never an error, and "done"
    exactly when the answer shows a ready replica. *)
Lemma readyCondition_run (env : Env) (namespace name : string) (h : Trace) :
  exists a : Answer,
    readyCondition env namespace name h
    = ((readyAnswer a, None), [(DeploymentsGet namespace name, a)]).
Proof.
  unfold readyCondition, bind, deployments_Get, ret.
  destruct (env_api env h _) as [e|]; simpl.
  - exists (Failed e). reflexivity.
  - exists (Status (env_status env h namespace name)). simpl.
    destruct (_ >=? 1)%Z; reflexivity.
Qed.

(** The answers that do not end the loop, then the one that does. *)
Lemma pollTicks_run (env : Env) (namespace name : string) (interval : Z) (ticks : nat) :
  forall h : Trace,
  exists (answers : list Answer) (final : Answer),
    snd (pollTicks ticks interval (readyCondition env namespace name) h)
    = pollSchedule namespace name interval (answers ++ [final])
    /\ Forall (fun a => readyAnswer a = false) answers
    /\ (length answers <= ticks)%nat
    /\ fst (pollTicks ticks interval (readyCondition env namespace name) h)
       = (if readyAnswer final then None else Some ErrWaitTimeout)
    /\ (readyAnswer final = false -> length answers = ticks).
Proof.
  induction ticks as [|ticks IH]; intros h.
  - destruct (readyCondition_run env namespace name h) as [a Ha].
    exists [], a. simpl. unfold bind. rewrite Ha.
    destruct (readyAnswer a); simpl; repeat split; auto.
  - destruct (readyCondition_run env namespace name h) as [a Ha].
    simpl. unfold bind. rewrite Ha.
    destruct (readyAnswer a) eqn:Hr.
    + exists [], a. simpl. rewrite Hr. repeat split; auto with lia.
    + unfold sleep.
      set (h' := (h ++ [(DeploymentsGet namespace name, a)]) ++ [(Sleep interval, Done)]).
      destruct (IH h') as (answers & final & Hw & Hall & Hlen & Hres & Hto).
      destruct (pollTicks ticks interval _ h') as [r w]. simpl in *.
      exists (a :: answers), final. subst w r.
      split; [|split; [|split; [|split]]].
      * change ((a :: answers) ++ [final]) with (a :: (answers ++ [final])).
        rewrite pollSchedule_cons; [reflexivity|]. now destruct answers.
      * constructor; assumption.
      * simpl. lia.
      * reflexivity.
      * intros H. simpl. f_equal. auto.
Qed.

(** C5: [waitForDeploymentReady] with the budget of 120 seconds fetches the
    status at once and then every 5 seconds.  Every fetch but the last
    failed or showed no ready replica, and none of them ended the loop; the
    loop ends with nil at the first fetch that shows a ready replica, with
    nothing after it; it ends with the timeout error only after the 25
    fetches of the instants 0, 5, ..., 120 none of which was ready. *)
Theorem waitForDeploymentReady_polls (env : Env) (namespace name : string) (h : Trace) :
  exists (answers : list Answer) (final : Answer),
    snd (waitForDeploymentReady env namespace name (120 * Second) h)
    = pollSchedule namespace name (5 * Second) (answers ++ [final])
    /\ Forall (fun a => readyAnswer a = false) answers
    /\ (length answers <= 24)%nat
    /\ fst (waitForDeploymentReady env namespace name (120 * Second) h)
       = (if readyAnswer final then None else Some ErrWaitTimeout)
    /\ (readyAnswer final = true \/ length answers = 24%nat).
Proof.
  unfold waitForDeploymentReady, PollImmediate.
  change (Z.to_nat (120 * Second / (5 * Second))) with 24%nat.
  destruct (pollTicks_run env namespace name (5 * Second) 24 h)
    as (answers & final & Hw & Hall & Hlen & Hres & Hto).
  exists answers, final. repeat split; try assumption.
  destruct (readyAnswer final); [left; reflexivity | right; now apply Hto].
Qed.

(** A fetch that fails does not end the loop: the next one, five seconds
    later, is ready and the wait succeeds. *)
Example waitForDeploymentReady_survives_fetch_error :
  waitForDeploymentReady (World.flaky 1) "demo" "site-abcde-db" (120 * Second) []
  = (None,
     [(DeploymentsGet "demo" "site-abcde-db", Failed World.refused);
      (Sleep (5 * Second), Done);
      (DeploymentsGet "demo" "site-abcde-db", Status World.ready)]).
Proof. vm_compute. reflexivity. Qed.

(** ** The chain of stages *)

Section Stages.

Variable success : Response.

(** A failing stage ends the chain: its response, and no event after its
    own. *)
Lemma runStages_abort (h : Trace) (done : list Stage) (w_pre : Trace) :
  StagesSucceed h done w_pre ->
  forall (failing : Stage) (rest : list Stage) (err : error) (w_k : Trace),
    fst failing (h ++ w_pre) = (Some err, w_k) ->
    runStages (done ++ failing :: rest) success h
    = (snd failing err, w_pre ++ w_k).
Proof.
  induction 1 as [h | h [step onError] stages w1 w2 Hs _ IH];
    intros [fstep fonError] rest err w_k Hf; simpl in *.
  - rewrite app_nil_r in Hf. unfold bind. rewrite Hf. unfold ret.
    now rewrite app_nil_r.
  - unfold bind. rewrite Hs.
    rewrite (IH (fstep, fonError) rest err w_k).
    + now rewrite app_assoc.
    + simpl. now rewrite <- app_assoc.
Qed.

Lemma runStages_complete (h : Trace) (stages : list Stage) (w : Trace) :
  StagesSucceed h stages w -> runStages stages success h = (success, w).
Proof.
  induction 1 as [h | h [step onError] stages w1 w2 Hs _ IH]; simpl in *.
  - reflexivity.
  - unfold bind. now rewrite Hs, IH.
Qed.

(** Either all stages succeed or there is a first one that fails. *)
Lemma stages_cases (stages : list Stage) :
  forall h : Trace,
    (exists w, StagesSucceed h stages w)
    \/ (exists done failing rest w_pre err w_k,
          stages = done ++ failing :: rest
          /\ StagesSucceed h done w_pre
          /\ fst failing (h ++ w_pre) = (Some err, w_k)).
Proof.
  induction stages as [|s stages IH]; intros h.
  - left. exists []. constructor.
  - destruct (fst s h) as [[err|] w1] eqn:Hs.
    + right. exists [], s, stages, [], err, w1. repeat split.
      * constructor.
      * now rewrite app_nil_r.
    + destruct (IH (h ++ w1)) as [[w Hw] | (done & f & rest & w_pre & err & w_k & -> & Hd & Hf)].
      * left. exists (w1 ++ w). now constructor.
      * right. exists (s :: done), f, rest, (w1 ++ w_pre), err, w_k.
        repeat split.
        -- now constructor.
        -- now rewrite app_assoc.
Qed.

Lemma succeed_cons_eq (h : Trace) (s : Stage) (stages : list Stage) (w w1 w2 : Trace) :
  fst s h = (None, w1) ->
  StagesSucceed (h ++ w1) stages w2 ->
  w = w1 ++ w2 ->
  StagesSucceed h (s :: stages) w.
Proof. intros H1 H2 ->. now constructor. Qed.

(** What one of the stages of a chain that succeeded did. *)
Lemma StagesSucceed_inv_app (before : list Stage) :
  forall (h : Trace) (s : Stage) (after : list Stage) (w : Trace),
    StagesSucceed h (before ++ s :: after) w ->
    exists w1 wk w2,
      w = w1 ++ wk ++ w2 /\ fst s (h ++ w1) = (None, wk).
Proof.
  induction before as [|b before IH]; intros h s after w H;
    inversion H as [|h' s' st w1 w2 Hs Hrest]; subst.
  - exists [], w1, w2. split; [reflexivity | now rewrite app_nil_r].
  - destruct (IH _ _ _ _ Hrest) as (u1 & uk & u2 & -> & Hk).
    exists (w1 ++ u1), uk, u2. split.
    + now rewrite <- app_assoc.
    + now rewrite app_assoc.
Qed.

(** Events of a chain are events of its stages. *)
Lemma runStages_Forall (P : Event -> Prop) (stages : list Stage) :
  Forall (fun s : Stage => forall h, Forall P (snd (fst s h))) stages ->
  forall h, Forall P (snd (runStages stages success h)).
Proof.
  induction 1 as [|[step onError] stages Hs _ IH]; intros h; simpl.
  - constructor.
  - unfold bind. specialize (Hs h). simpl in Hs.
    destruct (step h) as [[err|] w1]; simpl in *.
    + now rewrite app_nil_r.
    + specialize (IH (h ++ w1)).
      destruct (runStages stages success (h ++ w1)) as [resp w2].
      simpl in *. apply Forall_app. now split.
Qed.


End Stages.

(** Runs a chain of stages in a concrete world. *)
Ltac run_stages :=
  first [ apply succeed_nil
        | eapply succeed_cons_eq; [lazy; reflexivity | run_stages | lazy; reflexivity] ].

(** The handler is the chain over [stagesOf], once the request is accepted
    and the suffix drawn. *)
Lemma handleCreateWordPress_stages (env : Env) (r : Request) :
  handleCreateWordPress env r
  = if negb (Method r =? "POST") then
      ret (fail StatusMethodNotAllowed "Only POST is allowed")
    else
      match Body r with
      | inl _ => ret (fail StatusBadRequest "Invalid JSON payload")
      | inr payload =>
        if Namespace payload =? "" then
          ret (fail StatusBadRequest "namespace is required")
        else
          s <- generateRandomSuffix env 5 ;;
          match s with
          | inl _ =>
            ret (fail StatusInternalServerError "Could not generate unique suffix")
          | inr suffix =>
            runStages (stagesOf env (withDefaults payload) suffix)
                      (summary (withDefaults payload) suffix)
          end
      end.
Proof. reflexivity. Qed.

(** ** Abort at the first failure *)

Lemma stagesOf_failure_responses (env : Env) (payload : RequestPayload) (suffix : string) :
  Forall (fun s : Stage =>
            forall err, Success (Json (snd s err)) = false
                        /\ StatusCode (snd s err) = StatusInternalServerError)
         (stagesOf env payload suffix).
Proof. unfold stagesOf. repeat constructor. Qed.

Lemma accepted_request (env : Env) (r : Request) (payload : RequestPayload) :
  Method r = "POST" -> Body r = inr payload -> Namespace payload <> "" ->
  handleCreateWordPress env r
  = (s <- generateRandomSuffix env 5 ;;
     match s with
     | inl _ => ret (fail StatusInternalServerError "Could not generate unique suffix")
     | inr suffix =>
       runStages (stagesOf env (withDefaults payload) suffix)
                 (summary (withDefaults payload) suffix)
     end).
Proof.
  intros Hm Hb Hn. rewrite handleCreateWordPress_stages, Hm, Hb.
  apply String.eqb_neq in Hn. now rewrite Hn.
Qed.

(** What a failing [createPersistentVolumeClaim] emitted: nothing when the
    size was rejected, else the one create call that was refused. *)
Lemma createPersistentVolumeClaim_failure (env : Env) (namespace pvcName pvName : string)
    (sizeGB : Z) (h w : Trace) (err : error) :
  createPersistentVolumeClaim env namespace pvcName pvName sizeGB h = (Some err, w) ->
  w = [] \/ exists (pvc : corev1.PersistentVolumeClaim) (e : error),
             w = [(PersistentVolumeClaimsCreate namespace pvc, Failed e)].
Proof.
  unfold createPersistentVolumeClaim, bind, api, ret.
  destruct (env_parseQuantity env _); [intros [= _ <-]; now left|].
  destruct (env_api env h _) as [e|] eqn:E; simpl; [|discriminate].
  intros [= _ <-]. right. eauto.
Qed.

(** C4: for a request that passed validation, (1) if the suffix cannot be
    drawn the handler answers with a failure and emits nothing but the
    draws; (2) if the steps before some step all succeed and that step
    returns an error, the handler answers with the failure response of that
    step (status 500, success false) and the events of the request are
    those of the steps up to and including the failing one, nothing after;
    (3) in particular, if the client, the namespace and the database volume
    succeed and [createPersistentVolumeClaim] for the database fails, the
    response is "Failed to create MySQL PVC: ..." and no event follows the
    failing step. *)
Theorem handleCreateWordPress_stops_at_first_failure
    (env : Env) (r : Request) (payload : RequestPayload) (h : Trace) :
  Method r = "POST" -> Body r = inr payload -> Namespace payload <> "" ->
  (forall (err : error) (w0 : Trace),
      generateRandomSuffix env 5 h = (inl err, w0) ->
      handleCreateWordPress env r h
      = (fail StatusInternalServerError "Could not generate unique suffix", w0))
  /\ (forall (suffix : string) (w0 : Trace) (done : list Stage) (failing : Stage)
            (rest : list Stage) (w_pre : Trace) (err : error) (w_k : Trace),
        generateRandomSuffix env 5 h = (inr suffix, w0) ->
        stagesOf env (withDefaults payload) suffix = done ++ failing :: rest ->
        StagesSucceed (h ++ w0) done w_pre ->
        fst failing (h ++ w0 ++ w_pre) = (Some err, w_k) ->
        handleCreateWordPress env r h = (snd failing err, w0 ++ w_pre ++ w_k)
        /\ Success (Json (snd failing err)) = false
        /\ StatusCode (snd failing err) = StatusInternalServerError)
  /\ (forall (suffix : string) (w0 w_pre : Trace) (err : error) (w_k : Trace),
        generateRandomSuffix env 5 h = (inr suffix, w0) ->
        StagesSucceed (h ++ w0) (take 3 (stagesOf env (withDefaults payload) suffix)) w_pre ->
        let n := namesOf (DeploymentName (withDefaults payload)) suffix in
        createPersistentVolumeClaim env (Namespace payload) (dbPVCName n) (dbPVName n)
          (DatabaseDiskGB (withDefaults payload)) (h ++ w0 ++ w_pre) = (Some err, w_k) ->
        handleCreateWordPress env r h
        = (fail StatusInternalServerError ("Failed to create MySQL PVC: " +:+ Error err),
           w0 ++ w_pre ++ w_k)).
Proof.
  intros Hm Hb Hn. rewrite (accepted_request env r payload Hm Hb Hn).
  assert (Hgeneral :
    forall suffix w0 done failing rest w_pre err w_k,
      generateRandomSuffix env 5 h = (inr suffix, w0) ->
      stagesOf env (withDefaults payload) suffix = done ++ failing :: rest ->
      StagesSucceed (h ++ w0) done w_pre ->
      fst failing (h ++ w0 ++ w_pre) = (Some err, w_k) ->
      (s <- generateRandomSuffix env 5 ;;
       match s with
       | inl _ => ret (fail StatusInternalServerError "Could not generate unique suffix")
       | inr suffix =>
         runStages (stagesOf env (withDefaults payload) suffix)
                   (summary (withDefaults payload) suffix)
       end) h = (snd failing err, w0 ++ w_pre ++ w_k)).
  { intros suffix w0 done failing rest w_pre err w_k Hgen Hst Hdone Hfail.
    unfold bind. rewrite Hgen, Hst.
    rewrite app_assoc in Hfail.
    now rewrite (runStages_abort _ _ _ _ Hdone failing rest err w_k Hfail). }
  split; [|split].
  - intros err w0 Hgen. unfold bind. rewrite Hgen. unfold ret. now rewrite app_nil_r.
  - intros suffix w0 done failing rest w_pre err w_k Hgen Hst Hdone Hfail.
    split; [eauto|].
    pose proof (stagesOf_failure_responses env (withDefaults payload) suffix) as Hall.
    rewrite Hst in Hall. apply Forall_app in Hall as [_ Hall].
    apply Forall_cons in Hall as [Hf _]. apply Hf.
  - intros suffix w0 w_pre err w_k Hgen Hdone n Hfail.
    apply (Hgeneral suffix w0 (take 3 (stagesOf env (withDefaults payload) suffix))
             (createPersistentVolumeClaim env (Namespace payload) (dbPVCName n) (dbPVName n)
                (DatabaseDiskGB (withDefaults payload)),
              fun err => fail StatusInternalServerError
                           ("Failed to create MySQL PVC: " +:+ Error err))
             (drop 4 (stagesOf env (withDefaults payload) suffix))
             w_pre err w_k Hgen); [reflexivity | exact Hdone | exact Hfail].
Qed.

(** Scenario 5 run: the claim of the database tier is refused. *)
Lemma handleCreateWordPress_stops_at_first_failure_witness :
  handleCreateWordPress World.noClaims (World.post "demo" "site") []
  = (fail StatusInternalServerError
       "Failed to create MySQL PVC: unable to create PVC site-abcde-db-pvc: forbidden",
     snd (handleCreateWordPress World.noClaims (World.post "demo" "site") []))
  /\ map fst (snd (handleCreateWordPress World.noClaims (World.post "demo" "site") []))
     = map fst (take 9 (snd (handleCreateWordPress World.calm (World.post "demo" "site") []))).
Proof.
  split; [|vm_compute; reflexivity].
  pose (payload := {| Kubeconfig := ""; Namespace := "demo"; PersistenceDiskGB := 0;
                      DatabaseDiskGB := 0; DeploymentName := "site" |}).
  pose (w0 := snd (generateRandomSuffix World.noClaims 5 [])).
  pose (w_pre := drop 5 (take 8 (snd (handleCreateWordPress World.calm
                                        (World.post "demo" "site") [])))).
  assert (Hrun := proj2 (proj2 (handleCreateWordPress_stops_at_first_failure
                    World.noClaims (World.post "demo" "site") payload []
                    eq_refl eq_refl ltac:(discriminate)))
                    "abcde" w0 w_pre
                    (Errorf "unable to create PVC site-abcde-db-pvc: " World.refused)
                    [(PersistentVolumeClaimsCreate "demo"
                        {| corev1.pvc_Name := "site-abcde-db-pvc";
                           corev1.pvc_Namespace := "demo";
                           corev1.pvc_Labels := {[ "app" := "site-abcde-db-pvc" ]};
                           corev1.pvc_AccessModes := ["ReadWriteOnce"];
                           corev1.pvc_Requests := "5Gi";
                           corev1.pvc_Selector := {[ "app" := "site-abcde-db-pv" ]} |},
                      Failed World.refused)]).
  etransitivity; [apply Hrun|].
  - reflexivity.
  - unfold stagesOf. cbn [take]. run_stages.
  - vm_compute. reflexivity.
  - vm_compute. reflexivity.
Defined.

(** ** Order of the events of a request *)





(** Unfolds a helper down to the answers of the world and looks at each. *)
Ltac by_cases_on_world :=
  repeat match goal with
         | |- context [match env_parseQuantity ?e ?q with _ => _ end] =>
           destruct (env_parseQuantity e q); simpl
         | |- context [match env_api ?e ?h ?c with _ => _ end] =>
           destruct (env_api e h c); simpl
         | |- context [match env_randRead ?e ?h with _ => _ end] =>
           destruct (env_randRead e h); simpl
         | |- context [match env_kubeClient ?e ?h ?k with _ => _ end] =>
           destruct (env_kubeClient e h k); simpl
         end.





(** ** The database host in the secret *)

Lemma StagesSucceed_lookup (h : Trace) (stages : list Stage) (w : Trace)
    (k : nat) (s : Stage) :
  StagesSucceed h stages w ->
  stages !! k = Some s ->
  exists w1 wk w2, w = w1 ++ wk ++ w2 /\ fst s (h ++ w1) = (None, wk).
Proof.
  intros Hw Hk. rewrite <- (take_drop_middle _ _ _ Hk) in Hw.
  now apply StagesSucceed_inv_app in Hw.
Qed.

Lemma createWPMySQLSecret_success (env : Env) (namespace secretName deployName : string)
    (h w : Trace) :
  createWPMySQLSecret env namespace secretName deployName h = (None, w) ->
  exists rootPass wpPass : string,
    In (SecretsCreate namespace
          {| corev1.secret_Name := secretName;
             corev1.secret_Namespace := namespace;
             corev1.secret_Type := "Opaque";
             corev1.secret_Data := secretData rootPass wpPass deployName |}, Done) w.
Proof.
  unfold createWPMySQLSecret, generateRandomPassword, bind, rand_Read, api, ret.
  destruct (env_randRead env h) as [e|f]; simpl; [discriminate|].
  destruct (env_randRead env _) as [e|g]; simpl; [discriminate|].
  destruct (env_api env _ _); simpl; [discriminate|].
  intros [= <-]. eexists _, _. right. right. left. reflexivity.
Qed.

Lemma createMySQLService_success (env : Env) (namespace svcName deployName : string)
    (h w : Trace) :
  createMySQLService env namespace svcName deployName h = (None, w) ->
  exists service : corev1.Service,
    w = [(ServicesCreate namespace service, Done)]
    /\ corev1.svc_Name service = svcName
    /\ corev1.svc_PortName service = "mysql".
Proof.
  unfold createMySQLService, bind, api, ret.
  destruct (env_api env _ _); simpl; [discriminate|].
  intros [= <-]. eexists. repeat split.
Qed.

Lemma append_neq_self (s t : string) : t <> "" -> s +:+ t <> s.
Proof.
  intros Ht E. apply (f_equal String.length) in E.
  rewrite length_app_string in E. destruct t; [congruence | simpl in E; lia].
Qed.

(** A response that reports success is the summary of a run in which the
    suffix was drawn and every stage succeeded. *)
Lemma success_inv (env : Env) (r : Request) (h : Trace) :
  Success (Json (fst (handleCreateWordPress env r h))) = true ->
  exists (payload : RequestPayload) (suffix : string) (w0 w : Trace),
    Body r = inr payload
    /\ generateRandomSuffix env 5 h = (inr suffix, w0)
    /\ StagesSucceed (h ++ w0) (stagesOf env (withDefaults payload) suffix) w
    /\ handleCreateWordPress env r h = (summary (withDefaults payload) suffix, w0 ++ w).
Proof.
  rewrite handleCreateWordPress_stages.
  destruct (negb (Method r =? "POST")); [discriminate|].
  destruct (Body r) as [e|payload]; [discriminate|].
  destruct (Namespace payload =? ""); [discriminate|].
  unfold bind.
  destruct (generateRandomSuffix env 5 h) as [[e|suffix] w0]; [discriminate|].
  destruct (stages_cases (stagesOf env (withDefaults payload) suffix) (h ++ w0))
    as [[w Hw] | (done & f & rest & w_pre & err & w_k & Hst & Hd & Hf)].
  - rewrite (runStages_complete _ _ _ _ Hw). intros _.
    exists payload, suffix, w0, w. auto.
  - rewrite Hst, (runStages_abort _ _ _ _ Hd f rest err w_k Hf). simpl.
    pose proof (stagesOf_failure_responses env (withDefaults payload) suffix) as Hall.
    rewrite Hst in Hall. apply Forall_app in Hall as [_ Hall].
    apply Forall_cons in Hall as [Hfail _].
    destruct (Hfail err) as [-> _]. discriminate.
Qed.

(** C1 (the code departs from the claim): whenever the handler reports
    success, it created the MySQL service under some name and a secret
    whose WORDPRESS_DB_HOST is that name followed by "-db-svc", which is
    not the name of the service. *)
Theorem secret_host_is_not_the_service_name (env : Env) (r : Request) (h : Trace) :
  Success (Json (fst (handleCreateWordPress env r h))) = true ->
  exists (namespace : string) (service : corev1.Service) (secret : corev1.Secret),
    In (ServicesCreate namespace service, Done) (snd (handleCreateWordPress env r h))
    /\ corev1.svc_PortName service = "mysql"
    /\ In (SecretsCreate namespace secret, Done) (snd (handleCreateWordPress env r h))
    /\ corev1.secret_Data secret !! "WORDPRESS_DB_HOST"
       = Some (corev1.svc_Name service +:+ "-db-svc")
    /\ corev1.secret_Data secret !! "WORDPRESS_DB_HOST"
       <> Some (corev1.svc_Name service).
Proof.
  intros Hok.
  destruct (success_inv env r h Hok) as (payload & suffix & w0 & w & _ & _ & Hw & ->).
  simpl.
  destruct (StagesSucceed_lookup _ _ _ 6%nat _ Hw eq_refl) as (a1 & ak & a2 & Ea & Hsecret).
  destruct (StagesSucceed_lookup _ _ _ 8%nat _ Hw eq_refl) as (b1 & bk & b2 & Eb & Hsvc).
  cbn [fst] in Hsecret, Hsvc.
  apply createWPMySQLSecret_success in Hsecret as (rootPass & wpPass & Hin).
  apply createMySQLService_success in Hsvc as (service & Hbk & Hname & Hport).
  eexists _, service, _. split; [|split; [exact Hport|split; [|split]]].
  - apply in_or_app. right. rewrite Eb, Hbk.
    apply in_or_app. right. left. reflexivity.
  - apply in_or_app. right. rewrite Ea.
    apply in_or_app. right. apply in_or_app. left. exact Hin.
  - simpl. rewrite secretData_host, Hname. reflexivity.
  - simpl. rewrite secretData_host, Hname. intros [= E].
    now apply append_neq_self in E.
Qed.

Lemma secret_host_is_not_the_service_name_witness :
  mysqlServiceNames (snd (handleCreateWordPress World.calm (World.post "demo" "site") []))
  = ["site-abcde-db-svc"]
  /\ secretHosts (snd (handleCreateWordPress World.calm (World.post "demo" "site") []))
     = [Some "site-abcde-db-svc-db-svc"]
  /\ exists (namespace : string) (service : corev1.Service) (secret : corev1.Secret),
       In (ServicesCreate namespace service, Done)
          (snd (handleCreateWordPress World.calm (World.post "demo" "site") []))
       /\ corev1.svc_PortName service = "mysql"
       /\ In (SecretsCreate namespace secret, Done)
            (snd (handleCreateWordPress World.calm (World.post "demo" "site") []))
       /\ corev1.secret_Data secret !! "WORDPRESS_DB_HOST"
          = Some (corev1.svc_Name service +:+ "-db-svc")
       /\ corev1.secret_Data secret !! "WORDPRESS_DB_HOST"
          <> Some (corev1.svc_Name service).
Proof.
  split; [vm_compute; reflexivity|]. split; [vm_compute; reflexivity|].
  apply (secret_host_is_not_the_service_name World.calm (World.post "demo" "site") []).
  vm_compute. reflexivity.
Defined.

(** The earlier revision of the handler passes the prefix, not the name of
    the service, and there the host is the name of the service. *)
Example earlier_revision_host_is_service_name :
  mysqlServiceNames
    (snd (Earlier.handleCreateWordPress World.calm (World.post "demo" "site") []))
  = ["site-db-svc"]
  /\ secretHosts
       (snd (Earlier.handleCreateWordPress World.calm (World.post "demo" "site") []))
     = [Some "site-db-svc"].
Proof. split; vm_compute; reflexivity. Qed.

(** When the suffix cannot be drawn the request ends there: the cluster is
    never contacted, the namespace is neither looked up nor created. *)
Example no_suffix_no_namespace :
  handleCreateWordPress World.noEntropy (World.post "demo" "site") []
  = (fail StatusInternalServerError "Could not generate unique suffix",
     [(RandInt 36, Failed (mkError StatusReasonUnknown "entropy"))]).
Proof. reflexivity. Qed.

(** ** The default prefix *)

Lemma withDefaults_empty_name (payload : RequestPayload) :
  DeploymentName payload = "" ->
  withDefaults payload = withDefaults (withDeploymentName payload "wp")
  /\ DeploymentName (withDefaults payload) = "wp".
Proof.
  intros H. unfold withDefaults, withDeploymentName. rewrite H. simpl. auto.
Qed.

(** C8: a POST request whose body decodes, with a namespace and without a
    deployment name (absent or empty), is not refused: the status is 200 or
    500, never 400 or 405; the handler behaves as for the same request
    with the deployment name "wp"; and when it reports success, the
    resources it lists are named with the prefix "wp". *)
Theorem empty_deployment_name_defaults_to_wp
    (env : Env) (r : Request) (payload : RequestPayload) (h : Trace) :
  Method r = "POST" -> Body r = inr payload -> Namespace payload <> "" ->
  DeploymentName payload = "" ->
  (StatusCode (fst (handleCreateWordPress env r h)) = StatusOK
   \/ StatusCode (fst (handleCreateWordPress env r h)) = StatusInternalServerError)
  /\ handleCreateWordPress env r h
     = handleCreateWordPress env
         {| Method := "POST"; Body := inr (withDeploymentName payload "wp") |} h
  /\ (Success (Json (fst (handleCreateWordPress env r h))) = true ->
      exists suffix : string,
        Resources (Json (fst (handleCreateWordPress env r h)))
        = [ "Namespace: " +:+ Namespace payload;
            "PV: " +:+ buildResourceName "wp" "db-pv" suffix;
            "PVC: " +:+ buildResourceName "wp" "db-pvc" suffix;
            "PV: " +:+ buildResourceName "wp" "wp-pv" suffix;
            "PVC: " +:+ buildResourceName "wp" "wp-pvc" suffix;
            "Secret: " +:+ buildResourceName "wp" "db-secret" suffix;
            "MySQL Deployment: " +:+ buildResourceName "wp" "db" suffix;
            "MySQL Service: " +:+ buildResourceName "wp" "db-svc" suffix;
            "WordPress Deployment: " +:+ buildResourceName "wp" "wp" suffix;
            "WordPress Service: " +:+ buildResourceName "wp" "wp-svc" suffix ]).
Proof.
  intros Hm Hb Hn Hd.
  destruct (withDefaults_empty_name payload Hd) as [Hwp Hname].
  split; [|split].
  - rewrite (accepted_request env r payload Hm Hb Hn). unfold bind.
    destruct (generateRandomSuffix env 5 h) as [[e|suffix] w0]; [right; reflexivity|].
    destruct (stages_cases (stagesOf env (withDefaults payload) suffix) (h ++ w0))
      as [[w Hw] | (done & f & rest & w_pre & err & w_k & Hst & Hdone & Hf)].
    + rewrite (runStages_complete _ _ _ _ Hw). left. reflexivity.
    + rewrite Hst, (runStages_abort _ _ _ _ Hdone f rest err w_k Hf). right. simpl.
      pose proof (stagesOf_failure_responses env (withDefaults payload) suffix) as Hall.
      rewrite Hst in Hall. apply Forall_app in Hall as [_ Hall].
      apply Forall_cons in Hall as [Hfail _]. apply Hfail.
  - rewrite (accepted_request env r payload Hm Hb Hn).
    rewrite (accepted_request env
               {| Method := "POST"; Body := inr (withDeploymentName payload "wp") |}
               (withDeploymentName payload "wp") eq_refl eq_refl Hn).
    now rewrite <- Hwp.
  - intros Hok.
    destruct (success_inv env r h Hok) as (payload' & suffix & w0 & w & Hb' & _ & _ & ->).
    rewrite Hb in Hb'. injection Hb' as <-.
    exists suffix. unfold summary, namesOf.
    cbn [fst Json Resources dbPVName dbPVCName dbDeploymentName dbServiceName
         dbSecretName wpPVName wpPVCName wpDeploymentName wpServiceName].
    rewrite Hname. reflexivity.
Qed.

Lemma empty_deployment_name_defaults_to_wp_witness :
  handleCreateWordPress World.calm (World.post "demo" "") []
  = handleCreateWordPress World.calm (World.post "demo" "wp") []
  /\ Resources (Json (fst (handleCreateWordPress World.calm (World.post "demo" "") [])))
     = [ "Namespace: demo"; "PV: wp-abcde-db-pv"; "PVC: wp-abcde-db-pvc";
         "PV: wp-abcde-wp-pv"; "PVC: wp-abcde-wp-pvc"; "Secret: wp-abcde-db-secret";
         "MySQL Deployment: wp-abcde-db"; "MySQL Service: wp-abcde-db-svc";
         "WordPress Deployment: wp-abcde-wp"; "WordPress Service: wp-abcde-wp-svc" ].
Proof.
  split; [|vm_compute; reflexivity].
  apply (proj1 (proj2 (empty_deployment_name_defaults_to_wp World.calm
                         (World.post "demo" "")
                         {| Kubeconfig := ""; Namespace := "demo";
                            PersistenceDiskGB := 0; DatabaseDiskGB := 0;
                            DeploymentName := "" |} []
                         eq_refl eq_refl ltac:(discriminate) eq_refl))).
Defined.

(** The earlier revision of the handler refuses such a request. *)
Lemma earlier_revision_requires_deployment_name
    (env : Env) (r : Request) (payload : RequestPayload) (h : Trace) :
  Method r = "POST" -> Body r = inr payload -> Namespace payload <> "" ->
  DeploymentName payload = "" ->
  Earlier.handleCreateWordPress env r h
  = (fail StatusBadRequest "deployment_name is required", []).
Proof.
  intros Hm Hb Hn Hd. unfold Earlier.handleCreateWordPress.
  apply String.eqb_neq in Hn. now rewrite Hm, Hb, Hn, Hd.
Qed.


(** * Further properties of the code *)

(** ** Random strings *)

Lemma get_lookup (s : string) (n : nat) :
  String.get n s = list_ascii_of_string s !! n.
Proof.
  revert n. induction s as [|c s IH]; intros [|n]; simpl; auto.
Qed.

Lemma index_lookup (s : string) (i : Z) (c : ascii) :
  list_ascii_of_string s !! Z.to_nat i = Some c -> index s i = c.
Proof. unfold index. rewrite get_lookup. now intros ->. Qed.

Lemma length_list_ascii (s : string) :
  length (list_ascii_of_string s) = String.length s.
Proof. induction s as [|c s IH]; simpl; [reflexivity | now rewrite IH]. Qed.

Lemma index_In (s : string) (i : Z) :
  0 <= i < len s -> In (index s i) (list_ascii_of_string s).
Proof.
  intros Hi. unfold len in Hi.
  destruct (lookup_lt_is_Some_2 (list_ascii_of_string s) (Z.to_nat i)) as [c Hc].
  { rewrite length_list_ascii. lia. }
  rewrite (index_lookup _ _ _ Hc). apply list_elem_of_In.
  eapply list_elem_of_lookup_2. exact Hc.
Qed.

Lemma list_ascii_of_bytes (l : list ascii) : list_ascii_of_string (of_bytes l) = l.
Proof. induction l as [|c l IH]; simpl; [reflexivity | now rewrite IH]. Qed.

(** The loop of [generateRandomSuffix], run from index [i] with [todo]
    bytes to go: the draws it made, and the bytes it leaves. *)
Lemma suffixLoop_run (env : Env) (todo : nat) :
  forall (i : nat) (result : list ascii) (h : Trace),
    (i + todo)%nat = length result ->
    exists zs : list Z,
      Forall (fun z => 0 <= z < len suffixChars) zs
      /\ match suffixLoop env todo i result h with
         | (inr s, w) =>
           w = map drawn zs /\ length zs = todo
           /\ s = of_bytes (take i result ++ map (index suffixChars) zs)
         | (inl e, w) =>
           w = map drawn zs ++ [(RandInt (len suffixChars), Failed e)]
           /\ (length zs < todo)%nat
         end.
Proof.
  induction todo as [|todo IH]; intros i result h Hlen; simpl.
  - exists []. split; [constructor|]. unfold ret. repeat split.
    rewrite app_nil_r, take_ge by lia. reflexivity.
  - unfold bind, rand_Int.
    destruct (env_randInt env h (len suffixChars)) as [e|z]; simpl.
    + exists []. split; [constructor|]. split; [reflexivity | simpl; lia].
    + set (c := index suffixChars (z mod len suffixChars)).
      destruct (IH (S i) (<[i:=c]> result)
                  (h ++ [(RandInt (len suffixChars), Drawn (z mod len suffixChars))]))
        as (zs & Hzs & Hrun).
      { rewrite length_insert. lia. }
      destruct (suffixLoop env todo (S i) (<[i:=c]> result) _) as [[e|s] w].
      * destruct Hrun as [-> Hlt].
        exists (z mod len suffixChars :: zs). split.
        -- constructor; [apply suffix_index_in_range | assumption].
        -- split; [reflexivity | simpl; lia].
      * destruct Hrun as (-> & Hn & ->).
        exists (z mod len suffixChars :: zs). split.
        -- constructor; [apply suffix_index_in_range | assumption].
        -- repeat split; [simpl; lia|].
           f_equal. rewrite (take_S_r _ _ c).
           ++ rewrite take_insert_ge by lia. now rewrite <- app_assoc.
           ++ apply list_lookup_insert_eq. lia.
Qed.

(** The draws of [generateRandomSuffix] and what it returns. *)
Lemma suffix_draws (env : Env) (n : nat) (h : Trace) :
  exists zs : list Z,
    Forall (fun z => 0 <= z < 36) zs
    /\ match generateRandomSuffix env n h with
       | (inr s, w) =>
         w = map drawn zs /\ length zs = n
         /\ s = of_bytes (map (index suffixChars) zs)
       | (inl e, w) =>
         w = map drawn zs ++ [(RandInt 36, Failed e)] /\ (length zs < n)%nat
       end.
Proof.
  unfold generateRandomSuffix.
  destruct (suffixLoop_run env n 0 (replicate n Ascii.zero) h) as (zs & Hzs & Hrun).
  { now rewrite length_replicate. }
  exists zs. split; [exact Hzs|].
  destruct (suffixLoop env n 0 (replicate n Ascii.zero) h) as [[e|s] w]; exact Hrun.
Qed.

(** X1: [generateRandomSuffix(n)] draws one index below 36 per byte and
    stops at the first draw that fails.  Without error it made exactly [n]
    draws and returns the characters of the alphabet at the indices drawn,
    in order; with an error it made fewer than [n] successful draws, then
    the failing one, and nothing after. *)
Theorem generateRandomSuffix_draws (env : Env) (n : nat) (h : Trace) :
  exists zs : list Z,
    Forall (fun z => 0 <= z < 36) zs
    /\ match generateRandomSuffix env n h with
       | (inr s, w) =>
         w = map drawn zs /\ length zs = n
         /\ s = of_bytes (map (index suffixChars) zs)
       | (inl e, w) =>
         w = map drawn zs ++ [(RandInt 36, Failed e)] /\ (length zs < n)%nat
       end.
Proof. exact (suffix_draws env n h). Qed.

(** X2: whatever [generateRandomSuffix(n)] returns without error has [n]
    bytes, all of them lowercase letters or digits. *)
Theorem generateRandomSuffix_alphabet (env : Env) (n : nat) (h w : Trace) (s : string) :
  generateRandomSuffix env n h = (inr s, w) ->
  String.length s = n /\ inAlphabet suffixChars s.
Proof.
  intros E. split; [now apply generateRandomSuffix_length in E|].
  destruct (suffix_draws env n h) as (zs & Hzs & Hrun).
  rewrite E in Hrun. destruct Hrun as (_ & _ & ->).
  unfold inAlphabet. rewrite list_ascii_of_bytes.
  apply Forall_map. eapply Forall_impl; [exact Hzs|].
  intros z Hz. apply index_In. exact Hz.
Qed.

Lemma generateRandomSuffix_alphabet_witness :
  String.length "abcde" = 5%nat /\ inAlphabet suffixChars "abcde".
Proof.
  apply (generateRandomSuffix_alphabet World.calm 5 []
           (snd (generateRandomSuffix World.calm 5 [])) "abcde").
  reflexivity.
Defined.

(** X3: the characters of the suffix alphabet are the images of distinct
    indices: two indices below 36 that give the same character are equal,
    so an unbiased index gives an unbiased character. *)
Theorem suffix_index_injective (i j : Z) :
  0 <= i < 36 -> 0 <= j < 36 ->
  index suffixChars i = index suffixChars j -> i = j.
Proof.
  intros Hi Hj E.
  assert (Hnd : NoDup (list_ascii_of_string suffixChars)).
  { apply (bool_decide_unpack _). vm_compute. reflexivity. }
  destruct (lookup_lt_is_Some_2 (list_ascii_of_string suffixChars) (Z.to_nat i))
    as [a Ha]; [rewrite length_list_ascii; change (String.length suffixChars) with 36%nat; lia|].
  destruct (lookup_lt_is_Some_2 (list_ascii_of_string suffixChars) (Z.to_nat j))
    as [b Hb]; [rewrite length_list_ascii; change (String.length suffixChars) with 36%nat; lia|].
  rewrite (index_lookup _ _ _ Ha), (index_lookup _ _ _ Hb) in E. subst b.
  pose proof (NoDup_lookup _ _ _ _ Hnd Ha Hb). lia.
Qed.

Lemma suffix_index_injective_witness : (7 : Z) = 7.
Proof.
  apply (suffix_index_injective 7 7); [lia | lia | reflexivity].
Defined.

(** X4: [generateRandomPassword(length)] reads the entropy source once, for
    [length] bytes.  When the read fails it returns that error; otherwise
    the password has exactly [length] bytes, all from the password
    alphabet. *)
Theorem generateRandomPassword_run (env : Env) (n : nat) (h : Trace) :
  exists a : Answer,
    snd (generateRandomPassword env n h) = [(RandRead n, a)]
    /\ match fst (generateRandomPassword env n h) with
       | inr s => String.length s = n /\ inAlphabet passwordChars s
                  /\ exists bytes, a = Filled bytes /\ String.length bytes = n
       | inl e => a = Failed e /\ env_randRead env h = inl e
       end.
Proof.
  unfold generateRandomPassword, bind, rand_Read, ret.
  destruct (env_randRead env h) as [e|f]; simpl.
  - exists (Failed e). auto.
  - eexists. split; [reflexivity|]. repeat split.
    + now rewrite length_of_bytes, !length_map, length_seq.
    + unfold inAlphabet. rewrite list_ascii_of_bytes.
      apply Forall_map. apply Forall_forall. intros b _.
      apply index_In. apply index_in_range.
    + eexists. split; [reflexivity|].
      now rewrite length_of_bytes, length_map, length_seq.
Qed.

(** ** More on resource names *)

Lemma list_ascii_app (a b : string) :
  list_ascii_of_string (a +:+ b) = list_ascii_of_string a ++ list_ascii_of_string b.
Proof. induction a as [|c a IH]; simpl; [reflexivity | now rewrite IH]. Qed.

Lemma list_ascii_inj (a b : string) :
  list_ascii_of_string a = list_ascii_of_string b -> a = b.
Proof.
  intros E. rewrite <- (string_of_list_ascii_of_string a),
              <- (string_of_list_ascii_of_string b). now rewrite E.
Qed.

(** X5: a prefix that fits the budget is kept whole: when
    [len(prefix) + len(resourceType) + 7 <= 60] the name is the prefix, a
    dash, the suffix, a dash and the resource type.  For the resource
    types of the pipeline that is every prefix of at most 44 bytes. *)
Theorem buildResourceName_keeps_short_prefix (prefix resourceType suffix : string) :
  len prefix + len resourceType + 7 <= 60 ->
  buildResourceName prefix resourceType suffix
  = prefix +:+ "-" +:+ suffix +:+ "-" +:+ resourceType.
Proof.
  intros H. unfold buildResourceName. cbv zeta.
  change (if (len prefix >? _)%Z then _ else _)
    with (let allowed := 60 - (len resourceType + 5 + 2) in
          let allowed := if (allowed <? 0)%Z then 0 else allowed in
          if (len prefix >? allowed)%Z then slice_to prefix allowed else prefix).
  rewrite kept_prefix, substring_all; [reflexivity|].
  unfold prefixBudget, len in *. lia.
Qed.

Lemma buildResourceName_keeps_short_prefix_witness :
  buildResourceName "wp" "db-secret" "abcde" = "wp" +:+ "-" +:+ "abcde" +:+ "-" +:+ "db-secret".
Proof. apply buildResourceName_keeps_short_prefix. vm_compute. discriminate. Defined.

(** X6: with a suffix of five bytes, the name fits 60 bytes exactly when
    the resource type has at most 53 bytes; a longer resource type leaves
    no room for the prefix and the name is longer than 60 bytes. *)
Theorem buildResourceName_bound_iff (prefix resourceType suffix : string) :
  String.length suffix = 5%nat ->
  (len (buildResourceName prefix resourceType suffix) <= 60 <-> len resourceType <= 53).
Proof.
  intros H5. rewrite len_buildResourceName.
  assert (Hs : len suffix = 5) by (unfold len; now rewrite H5).
  pose proof (len_nonneg prefix). pose proof (len_nonneg resourceType).
  unfold prefixBudget. lia.
Qed.

Lemma buildResourceName_bound_iff_witness :
  len (buildResourceName "wp" "db-secret" "abcde") <= 60 <-> len "db-secret" <= 53.
Proof. apply buildResourceName_bound_iff. reflexivity. Defined.

(** X7: for a given prefix and resource type the name determines the
    suffix: two requests with the same prefix whose suffixes differ get
    different names for the same resource. *)
Theorem buildResourceName_suffix_injective (prefix resourceType s1 s2 : string) :
  buildResourceName prefix resourceType s1 = buildResourceName prefix resourceType s2 ->
  s1 = s2.
Proof.
  rewrite !buildResourceName_truncates_prefix_aux.
  intros E. apply (f_equal list_ascii_of_string) in E.
  rewrite !list_ascii_app in E.
  apply app_inv_head in E. apply app_inv_head in E. apply app_inv_tail in E.
  now apply list_ascii_inj.
Qed.

Lemma buildResourceName_suffix_injective_witness : "abcde" = "abcde".
Proof.
  apply (buildResourceName_suffix_injective "site" "db" "abcde" "abcde"). reflexivity.
Defined.

Lemma app_eq_suffix {A : Type} (x y a b : list A) :
  x ++ a = y ++ b -> a `suffix_of` b \/ b `suffix_of` a.
Proof.
  intros E. apply (suffix_weak_total a b (x ++ a)).
  - eexists; reflexivity.
  - rewrite E. eexists; reflexivity.
Qed.

Lemma pipeline_names_distinct (prefix suffix t1 t2 : string) :
  In t1 resourceTypes -> In t2 resourceTypes ->
  buildResourceName prefix t1 suffix = buildResourceName prefix t2 suffix ->
  t1 = t2.
Proof.
  intros H1 H2 E.
  rewrite !buildResourceName_truncates_prefix_aux in E.
  apply (f_equal list_ascii_of_string) in E.
  rewrite !list_ascii_app in E. rewrite !app_assoc in E.
  apply app_eq_suffix in E as Htot.
  assert (Hall : Forall (fun a : string => Forall (fun b : string =>
             list_ascii_of_string a `suffix_of` list_ascii_of_string b
             \/ list_ascii_of_string b `suffix_of` list_ascii_of_string a -> a = b)
             resourceTypes) resourceTypes).
  { apply (bool_decide_unpack _). vm_compute. reflexivity. }
  apply list_elem_of_In in H1, H2.
  rewrite Forall_forall in Hall. specialize (Hall t1 H1).
  rewrite Forall_forall in Hall. exact (Hall t2 H2 Htot).
Qed.

(** X8: within one request the nine names are pairwise distinct: for the
    same prefix and suffix, two resource types of the pipeline that get
    the same name are the same resource type. *)
Theorem buildResourceName_types_distinct (prefix suffix t1 t2 : string) :
  In t1 resourceTypes -> In t2 resourceTypes ->
  buildResourceName prefix t1 suffix = buildResourceName prefix t2 suffix ->
  t1 = t2.
Proof. exact (pipeline_names_distinct prefix suffix t1 t2). Qed.

Lemma buildResourceName_types_distinct_witness : "db-pv" = "db-pv".
Proof.
  apply (buildResourceName_types_distinct "site" "abcde" "db-pv" "db-pv");
    [simpl; tauto | simpl; tauto | reflexivity].
Defined.

(** ** Defaults of the request *)

Lemma dropSpace_blank (fwd : bool) (s : string) :
  asciiBlank s -> Strings.dropSpace fwd s = "".
Proof.
  unfold asciiBlank. induction s as [|c s IH]; simpl; intros H; [reflexivity|].
  apply Forall_cons in H as [Hc Hs]. rewrite Hc. now apply IH.
Qed.

Lemma TrimSpace_blank (s : string) : asciiBlank s -> Strings.TrimSpace s = "".
Proof.
  intros H. unfold Strings.TrimSpace, Strings.TrimLeft, Strings.TrimRight.
  now rewrite (dropSpace_blank true s H).
Qed.

(** X9: after the defaults both disk sizes are at least 1 (a positive size
    is kept, any other becomes 5) and the deployment name is not empty (a
    name that is not blank is kept byte for byte, untrimmed); namespace
    and kubeconfig are untouched; applying the defaults twice changes
    nothing more. *)
Theorem withDefaults_invariants (payload : RequestPayload) :
  1 <= PersistenceDiskGB (withDefaults payload)
  /\ 1 <= DatabaseDiskGB (withDefaults payload)
  /\ (PersistenceDiskGB (withDefaults payload) = PersistenceDiskGB payload
      \/ PersistenceDiskGB payload <= 0 /\ PersistenceDiskGB (withDefaults payload) = 5)
  /\ (DatabaseDiskGB (withDefaults payload) = DatabaseDiskGB payload
      \/ DatabaseDiskGB payload <= 0 /\ DatabaseDiskGB (withDefaults payload) = 5)
  /\ DeploymentName (withDefaults payload) <> ""
  /\ (DeploymentName (withDefaults payload) = DeploymentName payload
      \/ Strings.TrimSpace (DeploymentName payload) = ""
         /\ DeploymentName (withDefaults payload) = "wp")
  /\ Namespace (withDefaults payload) = Namespace payload
  /\ Kubeconfig (withDefaults payload) = Kubeconfig payload
  /\ withDefaults (withDefaults payload) = withDefaults payload.
Proof.
  destruct payload as [kc ns pd dd name]. unfold withDefaults. cbn [Kubeconfig
    Namespace PersistenceDiskGB DatabaseDiskGB DeploymentName].
  destruct (Z.leb_spec pd 0) as [Hp|Hp]; destruct (Z.leb_spec dd 0) as [Hd|Hd];
    destruct (String.eqb_spec (Strings.TrimSpace name) "") as [Hn|Hn];
    change (Strings.TrimSpace "wp" =? "") with false;
    change (5 <=? 0)%Z with false; cbv iota;
    repeat match goal with
           | |- context [(?x <=? 0)%Z] =>
             let E := fresh in destruct (Z.leb_spec x 0) as [E|E]; [lia|]
           end;
    try rewrite (proj2 (String.eqb_neq _ _) Hn);
    repeat split; auto; try lia; try discriminate;
    intros ->; apply Hn; reflexivity.
Qed.

(** X10: a deployment name made of ASCII white space only (spaces, tabs,
    line ends) is treated like an absent one: the prefix becomes "wp". *)
Theorem blank_deployment_name_defaults_to_wp (payload : RequestPayload) :
  asciiBlank (DeploymentName payload) ->
  DeploymentName (withDefaults payload) = "wp".
Proof.
  intros H. unfold withDefaults. cbn [DeploymentName].
  now rewrite (TrimSpace_blank _ H).
Qed.

Lemma blank_deployment_name_defaults_to_wp_witness :
  DeploymentName
    (withDefaults {| Kubeconfig := ""; Namespace := "demo"; PersistenceDiskGB := 0;
                     DatabaseDiskGB := 0; DeploymentName := "  " |}) = "wp".
Proof.
  apply blank_deployment_name_defaults_to_wp. repeat constructor.
Defined.

(** ** Outcomes of a request *)

Lemma stagesOf_failure_fail (env : Env) (payload : RequestPayload) (suffix : string) :
  Forall (fun s : Stage =>
            forall err, exists msg, snd s err = fail StatusInternalServerError msg)
         (stagesOf env payload suffix).
Proof. unfold stagesOf. repeat constructor; intros err; eexists; reflexivity. Qed.

Lemma generateRandomSuffix_emits (env : Env) (n : nat) (h : Trace) :
  snd (generateRandomSuffix env (S n) h) <> [].
Proof.
  destruct (suffix_draws env (S n) h) as (zs & _ & Hrun).
  destruct (generateRandomSuffix env (S n) h) as [[e|s] w]; simpl.
  - destruct Hrun as [-> _]. now destruct zs.
  - destruct Hrun as (-> & Hlen & _). now destruct zs.
Qed.

(** The four ways a request ends. *)
Lemma handler_outcomes (env : Env) (r : Request) (h : Trace) :
  (exists msg, handleCreateWordPress env r h = (fail StatusMethodNotAllowed msg, [])
               /\ Method r <> "POST")
  \/ (exists msg, handleCreateWordPress env r h = (fail StatusBadRequest msg, [])
                  /\ Method r = "POST"
                  /\ ((exists e, Body r = inl e)
                      \/ exists payload, Body r = inr payload /\ Namespace payload = ""))
  \/ (exists msg payload,
         fst (handleCreateWordPress env r h) = fail StatusInternalServerError msg
         /\ snd (handleCreateWordPress env r h) <> []
         /\ Method r = "POST" /\ Body r = inr payload /\ Namespace payload <> "")
  \/ (exists payload suffix,
         fst (handleCreateWordPress env r h) = summary (withDefaults payload) suffix
         /\ snd (handleCreateWordPress env r h) <> []
         /\ Method r = "POST" /\ Body r = inr payload /\ Namespace payload <> "").
Proof.
  rewrite handleCreateWordPress_stages.
  destruct (String.eqb_spec (Method r) "POST") as [Hm|Hm]; cbn [negb].
  2:{ left. eexists. split; [reflexivity | assumption]. }
  destruct (Body r) as [e|payload] eqn:Hb.
  { right; left. eexists. split; [reflexivity|]. split; [assumption|]. left. eauto. }
  destruct (String.eqb_spec (Namespace payload) "") as [Hn|Hn].
  { right; left. eexists. split; [reflexivity|]. split; [assumption|]. right. eauto. }
  right; right. unfold bind.
  pose proof (generateRandomSuffix_emits env 4 h) as Hne.
  destruct (generateRandomSuffix env 5 h) as [[e|suffix] w0]; simpl in Hne.
  { left. eexists _, payload. cbn [fst snd ret]. rewrite app_nil_r.
    repeat split; auto. }
  assert (Hne' : forall w, w0 ++ w <> []) by (intros w E; apply app_eq_nil in E; tauto).
  destruct (stages_cases (stagesOf env (withDefaults payload) suffix) (h ++ w0))
    as [[w Hw] | (done & f & rest & w_pre & err & w_k & Hst & Hdone & Hf)].
  - right. rewrite (runStages_complete _ _ _ _ Hw). exists payload, suffix.
    cbn [fst snd]. repeat split; auto.
  - left. rewrite Hst, (runStages_abort _ _ _ _ Hdone f rest err w_k Hf).
    pose proof (stagesOf_failure_fail env (withDefaults payload) suffix) as Hall.
    rewrite Hst in Hall. apply Forall_app in Hall as [_ Hall].
    apply Forall_cons in Hall as [Hfail _]. destruct (Hfail err) as [msg Hmsg].
    exists msg, payload. cbn [fst snd]. repeat split; auto.
Qed.

(** X11: the handler touches the outside world exactly when the request
    passes validation: it emits no event at all (no entropy read, no client,
    no cluster call) if and only if it answers 405 or 400, and it answers
    so if and only if the method is not POST, the body does not decode, or
    the namespace is empty. *)
Theorem rejected_iff_no_event (env : Env) (r : Request) (h : Trace) :
  (snd (handleCreateWordPress env r h) = []
   <-> StatusCode (fst (handleCreateWordPress env r h)) = StatusMethodNotAllowed
       \/ StatusCode (fst (handleCreateWordPress env r h)) = StatusBadRequest)
  /\ (snd (handleCreateWordPress env r h) = []
      <-> Method r <> "POST"
          \/ (exists e, Body r = inl e)
          \/ (exists payload, Body r = inr payload /\ Namespace payload = "")).
Proof.
  destruct (handler_outcomes env r h)
    as [(msg & -> & Hm) | [(msg & -> & Hm & Hb) | [(msg & p & -> & Hne & Hm & Hb & Hn)
        | (p & sfx & -> & Hne & Hm & Hb & Hn)]]]; simpl.
  - split; split; auto.
  - split; split; auto.
  - split; split; try (intros E; now apply Hne in E).
    + intros [E|E]; discriminate E.
    + intros [E | [[e E] | (q & E & Hq)]]; [tauto | congruence|].
      rewrite Hb in E. injection E as <-. tauto.
  - split; split; try (intros E; now apply Hne in E).
    + intros [E|E]; discriminate E.
    + intros [E | [[e E] | (q & E & Hq)]]; [tauto | congruence|].
      rewrite Hb in E. injection E as <-. tauto.
Qed.

(** X12: the response reports success exactly with status 200, and exactly
    then it lists ten resources; with any other status it reports failure
    and lists no resource at all, whatever was created before the failing
    step. *)
Theorem success_iff_status_ok (env : Env) (r : Request) (h : Trace) :
  (Success (Json (fst (handleCreateWordPress env r h))) = true
   <-> StatusCode (fst (handleCreateWordPress env r h)) = StatusOK)
  /\ (Success (Json (fst (handleCreateWordPress env r h))) = false
      <-> Resources (Json (fst (handleCreateWordPress env r h))) = [])
  /\ (Success (Json (fst (handleCreateWordPress env r h))) = true
      <-> length (Resources (Json (fst (handleCreateWordPress env r h)))) = 10%nat).
Proof.
  destruct (handler_outcomes env r h)
    as [(msg & -> & _) | [(msg & -> & _) | [(msg & p & -> & _)
        | (p & sfx & -> & _)]]]; simpl;
    repeat split; intros; try reflexivity; try discriminate.
Qed.

(** ** What each step did when it succeeded *)

Lemma StagesSucceed_cons_inv (h : Trace) (s : Stage) (stages : list Stage) (w : Trace) :
  StagesSucceed h (s :: stages) w ->
  exists w1 w2, w = w1 ++ w2 /\ fst s h = (None, w1)
                /\ StagesSucceed (h ++ w1) stages w2.
Proof. inversion 1; subst; eauto. Qed.

Lemma StagesSucceed_nil_inv (h w : Trace) : StagesSucceed h [] w -> w = [].
Proof. now inversion 1. Qed.

Ltac step_succeeded :=
  by_cases_on_world; unfold ret; simpl;
  try discriminate; intros [= <-]; eexists; repeat split.

Lemma InitKubeClient_success (env : Env) (kubeconfig : string) (h w : Trace) :
  InitKubeClient env kubeconfig h = (None, w) -> w = [(KubeClient kubeconfig, Done)].
Proof.
  unfold InitKubeClient. destruct (env_kubeClient env h kubeconfig); simpl;
    [discriminate | now intros [= <-]].
Qed.

Lemma ensureNamespace_success (env : Env) (namespace : string) (h w : Trace) :
  ensureNamespace env namespace h = (None, w) ->
  w = [(NamespacesGet namespace, Done)]
  \/ exists e, w = [(NamespacesGet namespace, Failed e);
                    (NamespacesCreate {| corev1.ns_Name := namespace |}, Done)].
Proof.
  unfold ensureNamespace, bind, api, ret.
  destruct (env_api env h _) as [e|]; simpl; [|intros [= <-]; now left].
  destruct (env_api env _ _); simpl; [discriminate|].
  intros [= <-]. right. eauto.
Qed.

Lemma createPersistentVolume_success (env : Env) (namespace pvName hostPath : string)
    (sizeGB : Z) (h w : Trace) :
  createPersistentVolume env namespace pvName hostPath sizeGB h = (None, w) ->
  exists pv : corev1.PersistentVolume,
    w = [(PersistentVolumesCreate pv, Done)]
    /\ corev1.pv_Name pv = pvName
    /\ corev1.pv_Labels pv = {[ "app" := pvName ]}
    /\ corev1.pv_Capacity pv = Sprintf_d sizeGB +:+ "Gi"
    /\ corev1.pv_HostPath pv = hostPath.
Proof. unfold createPersistentVolume, bind, api. step_succeeded. Qed.

Lemma createPersistentVolumeClaim_success (env : Env) (namespace pvcName pvName : string)
    (sizeGB : Z) (h w : Trace) :
  createPersistentVolumeClaim env namespace pvcName pvName sizeGB h = (None, w) ->
  exists pvc : corev1.PersistentVolumeClaim,
    w = [(PersistentVolumeClaimsCreate namespace pvc, Done)]
    /\ corev1.pvc_Name pvc = pvcName
    /\ corev1.pvc_Namespace pvc = namespace
    /\ corev1.pvc_Selector pvc = {[ "app" := pvName ]}
    /\ corev1.pvc_Requests pvc = Sprintf_d sizeGB +:+ "Gi".
Proof. unfold createPersistentVolumeClaim, bind, api. step_succeeded. Qed.

Lemma createWPMySQLSecret_success_run (env : Env) (namespace secretName deployName : string)
    (h w : Trace) :
  createWPMySQLSecret env namespace secretName deployName h = (None, w) ->
  exists (b1 b2 : string) (secret : corev1.Secret),
    w = [(RandRead 16, Filled b1); (RandRead 16, Filled b2);
         (SecretsCreate namespace secret, Done)]
    /\ corev1.secret_Name secret = secretName
    /\ corev1.secret_Namespace secret = namespace.
Proof.
  unfold createWPMySQLSecret, generateRandomPassword, bind, rand_Read, api.
  by_cases_on_world; unfold ret; simpl; try discriminate.
  intros [= <-]. eexists _, _, _. repeat split.
Qed.

Lemma createMySQLDeployment_success (env : Env)
    (namespace deployName pvcName secretName : string) (h w : Trace) :
  createMySQLDeployment env namespace deployName pvcName secretName h = (None, w) ->
  exists d : appsv1.Deployment,
    w = [(DeploymentsCreate namespace d, Done)]
    /\ appsv1.d_Name d = deployName
    /\ appsv1.d_Selector d = {[ "app" := deployName ]}
    /\ appsv1.d_TemplateLabels d = {[ "app" := deployName ]}
    /\ appsv1.d_ClaimName d = pvcName
    /\ corev1.c_EnvFromSecret (appsv1.d_Container d) = secretName
    /\ corev1.c_Name (appsv1.d_Container d) = "mysql".
Proof. unfold createMySQLDeployment, bind, api. step_succeeded. Qed.

Lemma createWordPressDeployment_success (env : Env)
    (namespace deployName pvcName secretName dbSvcName : string) (h w : Trace) :
  createWordPressDeployment env namespace deployName pvcName secretName dbSvcName h
  = (None, w) ->
  exists d : appsv1.Deployment,
    w = [(DeploymentsCreate namespace d, Done)]
    /\ appsv1.d_Name d = deployName
    /\ appsv1.d_Selector d = {[ "app" := deployName ]}
    /\ appsv1.d_TemplateLabels d = {[ "app" := deployName ]}
    /\ appsv1.d_ClaimName d = pvcName
    /\ corev1.c_EnvFromSecret (appsv1.d_Container d) = secretName
    /\ corev1.c_Name (appsv1.d_Container d) = "wordpress".
Proof. unfold createWordPressDeployment, bind, api. step_succeeded. Qed.

Lemma createMySQLService_success_run (env : Env) (namespace svcName deployName : string)
    (h w : Trace) :
  createMySQLService env namespace svcName deployName h = (None, w) ->
  exists s : corev1.Service,
    w = [(ServicesCreate namespace s, Done)]
    /\ corev1.svc_Name s = svcName
    /\ corev1.svc_Selector s = {[ "app" := deployName ]}
    /\ corev1.svc_Port s = 3306.
Proof. unfold createMySQLService, bind, api. step_succeeded. Qed.

Lemma createWordPressService_success (env : Env) (namespace svcName deployName : string)
    (h w : Trace) :
  createWordPressService env namespace svcName deployName h = (None, w) ->
  exists s : corev1.Service,
    w = [(ServicesCreate namespace s, Done)]
    /\ corev1.svc_Name s = svcName
    /\ corev1.svc_Selector s = {[ "app" := deployName ]}
    /\ corev1.svc_Port s = 80.
Proof. unfold createWordPressService, bind, api. step_succeeded. Qed.

Lemma waitForDeploymentReady_success (env : Env) (namespace name : string) (h w : Trace) :
  waitForDeploymentReady env namespace name (120 * Second) h = (None, w) ->
  exists (answers : list Answer) (final : Answer),
    w = pollSchedule namespace name (5 * Second) (answers ++ [final])
    /\ readyAnswer final = true.
Proof.
  intros E. unfold waitForDeploymentReady, PollImmediate in E.
  destruct (pollTicks_run env namespace name (5 * Second)
              (Z.to_nat (120 * Second / (5 * Second))) h)
    as (answers & final & Hw & _ & _ & Hres & _).
  rewrite E in Hw, Hres. simpl in Hw, Hres.
  exists answers, final. split; [exact Hw|].
  destruct (readyAnswer final); [reflexivity | discriminate].
Qed.

(** The end of a poll loop that succeeded is a fetch that shows a ready
    replica of the deployment polled. *)
Lemma pollSchedule_last (namespace name : string) (interval : Z)
    (answers : list Answer) (final : Answer) :
  exists before : Trace,
    pollSchedule namespace name interval (answers ++ [final])
    = before ++ [(DeploymentsGet namespace name, final)]
    /\ creations before = [] /\ refusals before = [].
Proof.
  induction answers as [|a answers (before & E & Hc & Hr)].
  - exists []. auto.
  - change ((a :: answers) ++ [final]) with (a :: (answers ++ [final])).
    rewrite pollSchedule_cons by (now destruct answers). rewrite E.
    exists ((DeploymentsGet namespace name, a) :: (Sleep interval, Done) :: before).
    auto.
Qed.





(** ** The run of a request that went through *)

Lemma StagesSucceed_app_inv (before : list Stage) :
  forall (h : Trace) (after : list Stage) (w : Trace),
    StagesSucceed h (before ++ after) w ->
    exists w1 w2, w = w1 ++ w2 /\ StagesSucceed h before w1
                  /\ StagesSucceed (h ++ w1) after w2.
Proof.
  induction before as [|s before IH]; intros h after w H; simpl in H.
  - exists [], w. rewrite app_nil_r. repeat split; [constructor | assumption].
  - apply StagesSucceed_cons_inv in H as (u1 & u2 & -> & Hs & H).
    apply IH in H as (w1 & w2 & -> & H1 & H2).
    exists (u1 ++ w1), w2. split; [now rewrite app_assoc|]. split.
    + now constructor.
    + now rewrite app_assoc.
Qed.

(** The first ten stages, when they all succeed. *)
Lemma databaseTier_run (env : Env) (payload : RequestPayload) (suffix : string)
    (h w : Trace) :
  StagesSucceed h (take 10 (stagesOf env payload suffix)) w ->
  exists (nsw : Trace) (o : DatabaseTier) (b1 b2 : string) (polls : Trace),
    w = databaseTrace (Kubeconfig payload) (Namespace payload) nsw o b1 b2 polls
    /\ namespaceEvents (Namespace payload) nsw
    /\ databaseWired (Namespace payload) (namesOf (DeploymentName payload) suffix)
         (DatabaseDiskGB payload) (PersistenceDiskGB payload) o
    /\ readyPolls (Namespace payload)
         (dbDeploymentName (namesOf (DeploymentName payload) suffix)) polls.
Proof.
  unfold stagesOf. cbn [take]. intros H.
  apply StagesSucceed_cons_inv in H as (u0 & w0 & -> & H0 & H).
  apply StagesSucceed_cons_inv in H as (u1 & w1 & -> & H1 & H).
  apply StagesSucceed_cons_inv in H as (u2 & w2 & -> & H2 & H).
  apply StagesSucceed_cons_inv in H as (u3 & w3 & -> & H3 & H).
  apply StagesSucceed_cons_inv in H as (u4 & w4 & -> & H4 & H).
  apply StagesSucceed_cons_inv in H as (u5 & w5 & -> & H5 & H).
  apply StagesSucceed_cons_inv in H as (u6 & w6 & -> & H6 & H).
  apply StagesSucceed_cons_inv in H as (u7 & w7 & -> & H7 & H).
  apply StagesSucceed_cons_inv in H as (u8 & w8 & -> & H8 & H).
  apply StagesSucceed_cons_inv in H as (u9 & w9 & -> & H9 & H).
  apply StagesSucceed_nil_inv in H as ->.
  cbn [fst] in *.
  apply InitKubeClient_success in H0 as ->.
  apply ensureNamespace_success in H1.
  apply createPersistentVolume_success in H2 as (pvDb & -> & A2).
  apply createPersistentVolumeClaim_success in H3 as (pvcDb & -> & A3).
  apply createPersistentVolume_success in H4 as (pvWp & -> & A4).
  apply createPersistentVolumeClaim_success in H5 as (pvcWp & -> & A5).
  apply createWPMySQLSecret_success_run in H6 as (b1 & b2 & secret & -> & A6).
  apply createMySQLDeployment_success in H7 as (dDb & -> & A7).
  apply createMySQLService_success_run in H8 as (sDb & -> & A8).
  apply waitForDeploymentReady_success in H9.
  exists u1,
    {| made_pvDb := pvDb; made_pvcDb := pvcDb; made_pvWp := pvWp; made_pvcWp := pvcWp;
       made_secret := secret; made_dDb := dDb; made_sDb := sDb |}, b1, b2, u9.
  split; [|split; [exact H1 | split; [|exact H9]]].
  - unfold databaseTrace. cbn [made_pvDb made_pvcDb made_pvWp made_pvcWp made_secret
                                 made_dDb made_sDb].
    rewrite app_nil_r. reflexivity.
  - unfold databaseWired. cbn [made_pvDb made_pvcDb made_pvWp made_pvcWp made_secret
                                 made_dDb made_sDb]. tauto.
Qed.

(** The last three stages, when they all succeed. *)
Lemma appTier_run (env : Env) (payload : RequestPayload) (suffix : string)
    (h w : Trace) :
  StagesSucceed h (drop 10 (stagesOf env payload suffix)) w ->
  exists (a : AppTier) (polls : Trace),
    w = appTrace (Namespace payload) a polls
    /\ appWired (namesOf (DeploymentName payload) suffix) a
    /\ readyPolls (Namespace payload)
         (wpDeploymentName (namesOf (DeploymentName payload) suffix)) polls.
Proof.
  unfold stagesOf. cbn [drop]. intros H.
  apply StagesSucceed_cons_inv in H as (u0 & w0 & -> & H0 & H).
  apply StagesSucceed_cons_inv in H as (u1 & w1 & -> & H1 & H).
  apply StagesSucceed_cons_inv in H as (u2 & w2 & -> & H2 & H).
  apply StagesSucceed_nil_inv in H as ->.
  cbn [fst] in *.
  apply createWordPressDeployment_success in H0 as (dWp & -> & A0).
  apply createWordPressService_success in H1 as (sWp & -> & A1).
  apply waitForDeploymentReady_success in H2.
  exists {| made_dWp := dWp; made_sWp := sWp |}, u2.
  split; [|split; [|exact H2]].
  - unfold appTrace. cbn [made_dWp made_sWp]. now rewrite app_nil_r.
  - unfold appWired. cbn [made_dWp made_sWp]. tauto.
Qed.

(** A request that reports success: its events, from first to last. *)
Lemma success_run (env : Env) (r : Request) (h : Trace) :
  Success (Json (fst (handleCreateWordPress env r h))) = true ->
  exists (payload : RequestPayload) (suffix : string) (zs : list Z) (nsw : Trace)
         (o : DatabaseTier) (b1 b2 : string) (pollsDb : Trace)
         (a : AppTier) (pollsWp : Trace),
    Body r = inr payload
    /\ String.length suffix = 5%nat
    /\ length zs = 5%nat
    /\ handleCreateWordPress env r h
       = (summary (withDefaults payload) suffix,
          map drawn zs
          ++ databaseTrace (Kubeconfig payload) (Namespace payload) nsw o b1 b2 pollsDb
          ++ appTrace (Namespace payload) a pollsWp)
    /\ namespaceEvents (Namespace payload) nsw
    /\ databaseWired (Namespace payload)
         (namesOf (DeploymentName (withDefaults payload)) suffix)
         (DatabaseDiskGB (withDefaults payload))
         (PersistenceDiskGB (withDefaults payload)) o
    /\ readyPolls (Namespace payload)
         (dbDeploymentName (namesOf (DeploymentName (withDefaults payload)) suffix))
         pollsDb
    /\ appWired (namesOf (DeploymentName (withDefaults payload)) suffix) a
    /\ readyPolls (Namespace payload)
         (wpDeploymentName (namesOf (DeploymentName (withDefaults payload)) suffix))
         pollsWp.
Proof.
  intros Hok.
  destruct (success_inv env r h Hok) as (payload & suffix & w0 & w & Hb & Hgen & Hw & Hrun).
  destruct (suffix_draws env 5 h) as (zs & _ & Hzs).
  rewrite Hgen in Hzs. destruct Hzs as (-> & Hlen & _).
  rewrite <- (take_drop 10 (stagesOf env (withDefaults payload) suffix)) in Hw.
  apply StagesSucceed_app_inv in Hw as (w1 & w2 & -> & H1 & H2).
  apply databaseTier_run in H1 as (nsw & o & b1 & b2 & pollsDb & -> & Hns & Hdb & Hpdb).
  apply appTier_run in H2 as (a & pollsWp & -> & Happ & Hpwp).
  exists payload, suffix, zs, nsw, o, b1, b2, pollsDb, a, pollsWp.
  split; [exact Hb|].
  split; [now apply generateRandomSuffix_length in Hgen|].
  split; [exact Hlen|].
  split; [exact Hrun|].
  split; [exact Hns|]. split; [exact Hdb|]. split; [exact Hpdb|].
  split; [exact Happ | exact Hpwp].
Qed.



(** X13: when the handler reports success, the events of the request are,
    in this order: the five draws of the suffix; the construction of the
    client; the lookup of the namespace, followed by its creation when the
    lookup failed; the creations of the database volume and claim, of the
    WordPress volume and claim, two reads of 16 bytes of entropy, the
    creations of the secret, of the MySQL deployment and of its service; a
    poll loop that ends on a ready MySQL deployment; the creations of the
    WordPress deployment and of its service; a poll loop that ends on a
    ready WordPress deployment.  Every call but, possibly, the lookup of the
    namespace and fetches of the poll loops was answered without error. *)
Theorem success_events_in_order (env : Env) (r : Request) (h : Trace) :
  Success (Json (fst (handleCreateWordPress env r h))) = true ->
  exists (payload : RequestPayload) (suffix : string) (zs : list Z) (nsw : Trace)
         (o : DatabaseTier) (b1 b2 : string) (pollsDb : Trace)
         (a : AppTier) (pollsWp : Trace),
    Body r = inr payload
    /\ length zs = 5%nat
    /\ snd (handleCreateWordPress env r h)
       = map drawn zs
         ++ databaseTrace (Kubeconfig payload) (Namespace payload) nsw o b1 b2 pollsDb
         ++ appTrace (Namespace payload) a pollsWp
    /\ namespaceEvents (Namespace payload) nsw
    /\ readyPolls (Namespace payload) (appsv1.d_Name (made_dDb o)) pollsDb
    /\ readyPolls (Namespace payload) (appsv1.d_Name (made_dWp a)) pollsWp
    /\ corev1.c_Name (appsv1.d_Container (made_dDb o)) = "mysql"
    /\ corev1.c_Name (appsv1.d_Container (made_dWp a)) = "wordpress".
Proof.
  intros Hok.
  destruct (success_run env r h Hok)
    as (payload & suffix & zs & nsw & o & b1 & b2 & pollsDb & a & pollsWp
        & Hb & H5 & Hlen & Hrun & Hns & Hdb & Hpdb & Happ & Hpwp).
  exists payload, suffix, zs, nsw, o, b1, b2, pollsDb, a, pollsWp.
  destruct Hdb as (_ & _ & _ & _ & _ & (Hn & _ & _ & _ & _ & Hc) & _).
  destruct Happ as ((Hn' & _ & _ & _ & _ & Hc') & _).
  rewrite Hn, Hn', Hrun. cbn [snd].
  repeat split; assumption.
Qed.

Lemma success_events_in_order_witness :
  exists (payload : RequestPayload) (suffix : string) (zs : list Z) (nsw : Trace)
         (o : DatabaseTier) (b1 b2 : string) (pollsDb : Trace)
         (a : AppTier) (pollsWp : Trace),
    Body (World.post "demo" "site") = inr payload
    /\ length zs = 5%nat
    /\ snd (handleCreateWordPress World.calm (World.post "demo" "site") [])
       = map drawn zs
         ++ databaseTrace (Kubeconfig payload) (Namespace payload) nsw o b1 b2 pollsDb
         ++ appTrace (Namespace payload) a pollsWp
    /\ namespaceEvents (Namespace payload) nsw
    /\ readyPolls (Namespace payload) (appsv1.d_Name (made_dDb o)) pollsDb
    /\ readyPolls (Namespace payload) (appsv1.d_Name (made_dWp a)) pollsWp
    /\ corev1.c_Name (appsv1.d_Container (made_dDb o)) = "mysql"
    /\ corev1.c_Name (appsv1.d_Container (made_dWp a)) = "wordpress".
Proof.
  apply (success_events_in_order World.calm (World.post "demo" "site") []).
  vm_compute. reflexivity.
Defined.



(** ** How the objects of one request refer to each other *)

Lemma app_label_inj (a b : string) :
  ({[ "app" := a ]} : gmap string string) = {[ "app" := b ]} -> a = b.
Proof.
  intros E. apply (f_equal (fun m : gmap string string => m !! "app")) in E.
  rewrite !lookup_singleton_eq in E. now injection E.
Qed.

Lemma hostPath_inj (namespace a b : string) :
  "/mnt/data/" +:+ namespace +:+ "/" +:+ a +:+ "_data"
  = "/mnt/data/" +:+ namespace +:+ "/" +:+ b +:+ "_data" -> a = b.
Proof.
  intros E. apply (f_equal list_ascii_of_string) in E.
  rewrite !list_ascii_app in E.
  do 3 apply app_inv_head in E. apply app_inv_tail in E.
  now apply list_ascii_inj.
Qed.

(** X15: when the handler reports success, each tier has its own volume:
    the claim of a tier selects the label of the volume of that tier and
    requests its capacity, which is the size asked for in the request (5
    when none or a non-positive one was given) in Gi; the claim of one
    tier does not select the volume of the other, and the two volumes use
    different host paths. *)
Theorem success_binds_claims_to_volumes (env : Env) (r : Request) (h : Trace) :
  Success (Json (fst (handleCreateWordPress env r h))) = true ->
  exists (payload : RequestPayload) (zs : list Z) (nsw : Trace)
         (o : DatabaseTier) (b1 b2 : string) (pollsDb : Trace)
         (a : AppTier) (pollsWp : Trace),
    Body r = inr payload
    /\ snd (handleCreateWordPress env r h)
       = map drawn zs
         ++ databaseTrace (Kubeconfig payload) (Namespace payload) nsw o b1 b2 pollsDb
         ++ appTrace (Namespace payload) a pollsWp
    /\ claimBinds (made_pvcDb o) (made_pvDb o)
    /\ claimBinds (made_pvcWp o) (made_pvWp o)
    /\ corev1.pv_Capacity (made_pvDb o)
       = Sprintf_d (DatabaseDiskGB (withDefaults payload)) +:+ "Gi"
    /\ corev1.pv_Capacity (made_pvWp o)
       = Sprintf_d (PersistenceDiskGB (withDefaults payload)) +:+ "Gi"
    /\ corev1.pvc_Selector (made_pvcDb o) <> corev1.pv_Labels (made_pvWp o)
    /\ corev1.pvc_Selector (made_pvcWp o) <> corev1.pv_Labels (made_pvDb o)
    /\ corev1.pv_HostPath (made_pvDb o) <> corev1.pv_HostPath (made_pvWp o).
Proof.
  intros Hok.
  destruct (success_run env r h Hok)
    as (payload & suffix & zs & nsw & o & b1 & b2 & pollsDb & a & pollsWp
        & Hb & H5 & Hlen & Hrun & Hns & Hdb & Hpdb & Happ & Hpwp).
  exists payload, zs, nsw, o, b1, b2, pollsDb, a, pollsWp.
  destruct Hdb as ((N1 & L1 & C1 & P1) & (N2 & _ & S2 & R2) & (N3 & L3 & C3 & P3)
                   & (N4 & _ & S4 & R4) & _).
  assert (Hne : dbPVName (namesOf (DeploymentName (withDefaults payload)) suffix)
                <> wpPVName (namesOf (DeploymentName (withDefaults payload)) suffix)).
  { intros E. apply (pipeline_names_distinct _ _ "db-pv" "wp-pv") in E;
      [discriminate E| |]; simpl; tauto. }
  split; [exact Hb|]. split; [now rewrite Hrun|].
  unfold claimBinds. rewrite S2, L1, R2, C1, S4, L3, R4, C3, P1, P3.
  repeat split.
  - intros E. now apply app_label_inj in E.
  - intros E. apply app_label_inj in E. now symmetry in E.
  - intros E. now apply hostPath_inj in E.
Qed.

Lemma success_binds_claims_to_volumes_witness :
  exists (payload : RequestPayload) (zs : list Z) (nsw : Trace)
         (o : DatabaseTier) (b1 b2 : string) (pollsDb : Trace)
         (a : AppTier) (pollsWp : Trace),
    Body (World.post "demo" "site") = inr payload
    /\ snd (handleCreateWordPress World.calm (World.post "demo" "site") [])
       = map drawn zs
         ++ databaseTrace (Kubeconfig payload) (Namespace payload) nsw o b1 b2 pollsDb
         ++ appTrace (Namespace payload) a pollsWp
    /\ claimBinds (made_pvcDb o) (made_pvDb o)
    /\ claimBinds (made_pvcWp o) (made_pvWp o)
    /\ corev1.pv_Capacity (made_pvDb o)
       = Sprintf_d (DatabaseDiskGB (withDefaults payload)) +:+ "Gi"
    /\ corev1.pv_Capacity (made_pvWp o)
       = Sprintf_d (PersistenceDiskGB (withDefaults payload)) +:+ "Gi"
    /\ corev1.pvc_Selector (made_pvcDb o) <> corev1.pv_Labels (made_pvWp o)
    /\ corev1.pvc_Selector (made_pvcWp o) <> corev1.pv_Labels (made_pvDb o)
    /\ corev1.pv_HostPath (made_pvDb o) <> corev1.pv_HostPath (made_pvWp o).
Proof.
  apply (success_binds_claims_to_volumes World.calm (World.post "demo" "site") []).
  vm_compute. reflexivity.
Defined.

(** X16: when the handler reports success, both containers take their
    environment from the one secret created in the request; the MySQL
    deployment mounts the claim of the database tier and the WordPress
    deployment that of the WordPress tier; each service selects the pods of
    the deployment of its tier, as the deployment itself does, and not
    those of the other tier; claims and secret are in the namespace of the
    request. *)
Theorem success_wires_workloads (env : Env) (r : Request) (h : Trace) :
  Success (Json (fst (handleCreateWordPress env r h))) = true ->
  exists (payload : RequestPayload) (zs : list Z) (nsw : Trace)
         (o : DatabaseTier) (b1 b2 : string) (pollsDb : Trace)
         (a : AppTier) (pollsWp : Trace),
    Body r = inr payload
    /\ snd (handleCreateWordPress env r h)
       = map drawn zs
         ++ databaseTrace (Kubeconfig payload) (Namespace payload) nsw o b1 b2 pollsDb
         ++ appTrace (Namespace payload) a pollsWp
    /\ corev1.c_EnvFromSecret (appsv1.d_Container (made_dDb o))
       = corev1.secret_Name (made_secret o)
    /\ corev1.c_EnvFromSecret (appsv1.d_Container (made_dWp a))
       = corev1.secret_Name (made_secret o)
    /\ appsv1.d_ClaimName (made_dDb o) = corev1.pvc_Name (made_pvcDb o)
    /\ appsv1.d_ClaimName (made_dWp a) = corev1.pvc_Name (made_pvcWp o)
    /\ serviceSelects (made_sDb o) (made_dDb o)
    /\ serviceSelects (made_sWp a) (made_dWp a)
    /\ corev1.svc_Selector (made_sDb o) <> appsv1.d_TemplateLabels (made_dWp a)
    /\ corev1.svc_Selector (made_sWp a) <> appsv1.d_TemplateLabels (made_dDb o)
    /\ corev1.pvc_Namespace (made_pvcDb o) = Namespace payload
    /\ corev1.pvc_Namespace (made_pvcWp o) = Namespace payload
    /\ corev1.secret_Namespace (made_secret o) = Namespace payload.
Proof.
  intros Hok.
  destruct (success_run env r h Hok)
    as (payload & suffix & zs & nsw & o & b1 & b2 & pollsDb & a & pollsWp
        & Hb & H5 & Hlen & Hrun & Hns & Hdb & Hpdb & Happ & Hpwp).
  exists payload, zs, nsw, o, b1, b2, pollsDb, a, pollsWp.
  destruct Hdb as (_ & (N2 & M2 & _) & _ & (N4 & M4 & _) & (N5 & M5)
                   & (N6 & S6 & T6 & K6 & E6 & _) & (N7 & S7 & _)).
  destruct Happ as ((N8 & S8 & T8 & K8 & E8 & _) & (N9 & S9 & _)).
  assert (Hne : dbDeploymentName (namesOf (DeploymentName (withDefaults payload)) suffix)
                <> wpDeploymentName (namesOf (DeploymentName (withDefaults payload)) suffix)).
  { intros E. apply (pipeline_names_distinct _ _ "db" "wp") in E;
      [discriminate E| |]; simpl; tauto. }
  split; [exact Hb|]. split; [now rewrite Hrun|].
  unfold serviceSelects.
  rewrite E6, E8, N5, K6, K8, N2, N4, S7, T6, S6, S9, T8, S8, M2, M4, M5.
  repeat split.
  - intros E. now apply app_label_inj in E.
  - intros E. apply app_label_inj in E. now symmetry in E.
Qed.

Lemma success_wires_workloads_witness :
  exists (payload : RequestPayload) (zs : list Z) (nsw : Trace)
         (o : DatabaseTier) (b1 b2 : string) (pollsDb : Trace)
         (a : AppTier) (pollsWp : Trace),
    Body (World.post "demo" "site") = inr payload
    /\ snd (handleCreateWordPress World.calm (World.post "demo" "site") [])
       = map drawn zs
         ++ databaseTrace (Kubeconfig payload) (Namespace payload) nsw o b1 b2 pollsDb
         ++ appTrace (Namespace payload) a pollsWp
    /\ corev1.c_EnvFromSecret (appsv1.d_Container (made_dDb o))
       = corev1.secret_Name (made_secret o)
    /\ corev1.c_EnvFromSecret (appsv1.d_Container (made_dWp a))
       = corev1.secret_Name (made_secret o)
    /\ appsv1.d_ClaimName (made_dDb o) = corev1.pvc_Name (made_pvcDb o)
    /\ appsv1.d_ClaimName (made_dWp a) = corev1.pvc_Name (made_pvcWp o)
    /\ serviceSelects (made_sDb o) (made_dDb o)
    /\ serviceSelects (made_sWp a) (made_dWp a)
    /\ corev1.svc_Selector (made_sDb o) <> appsv1.d_TemplateLabels (made_dWp a)
    /\ corev1.svc_Selector (made_sWp a) <> appsv1.d_TemplateLabels (made_dDb o)
    /\ corev1.pvc_Namespace (made_pvcDb o) = Namespace payload
    /\ corev1.pvc_Namespace (made_pvcWp o) = Namespace payload
    /\ corev1.secret_Namespace (made_secret o) = Namespace payload.
Proof.
  apply (success_wires_workloads World.calm (World.post "demo" "site") []).
  vm_compute. reflexivity.
Defined.

(** ** The application tier waits for the database *)

Section Prefixes.

Variable success : Response.
Variable P : Event -> Prop.

(** A chain either stops within its first part, or runs that part to the
    end and goes on. *)
Lemma runStages_app_cases (first rest : list Stage) :
  Forall (fun s : Stage => forall h, Forall P (snd (fst s h))) first ->
  forall h : Trace,
    Forall P (snd (runStages (first ++ rest) success h))
    \/ exists w1 w2,
         snd (runStages (first ++ rest) success h) = w1 ++ w2
         /\ StagesSucceed h first w1 /\ Forall P w1.
Proof.
  induction 1 as [|[step onError] first Hs _ IH]; intros h.
  - right. exists [], (snd (runStages rest success h)).
    repeat split; constructor.
  - simpl. unfold bind. specialize (Hs h). simpl in Hs.
    destruct (step h) as [[err|] w1] eqn:Hstep; simpl in *.
    + left. now rewrite app_nil_r.
    + destruct (IH (h ++ w1)) as [Hall | (u1 & u2 & Hw & Hsucc & Hu1)].
      * left. destruct (runStages (first ++ rest) success (h ++ w1)) as [resp w2].
        simpl in *. apply Forall_app. now split.
      * right. destruct (runStages (first ++ rest) success (h ++ w1)) as [resp w2].
        simpl in *. subst w2. exists (w1 ++ u1), u2.
        split; [now rewrite app_assoc|]. split.
        -- apply succeed_cons; [exact Hstep | exact Hsucc].
        -- apply Forall_app. now split.
Qed.

Lemma split_after (e : Event) (A B pre post : Trace) :
  Forall P A -> ~ P e -> A ++ B = pre ++ e :: post ->
  exists pre', pre = A ++ pre'.
Proof.
  revert pre. induction A as [|x A IH]; intros pre HA He E.
  - exists pre. reflexivity.
  - apply Forall_cons in HA as [Hx HA]. destruct pre as [|y pre]; simpl in E.
    + injection E as -> _. contradiction.
    + injection E as -> E. destruct (IH pre HA He E) as [pre' ->].
      exists pre'. reflexivity.
Qed.

End Prefixes.

Lemma pollSchedule_no_wordpress (namespace name : string) (interval : Z)
    (answers : list Answer) :
  Forall (fun e => isWordPressCreate e = false)
         (pollSchedule namespace name interval answers).
Proof.
  induction answers as [|a answers IH]; [constructor|].
  destruct answers as [|b rest].
  - repeat constructor.
  - rewrite pollSchedule_cons by discriminate.
    constructor; [reflexivity|]. constructor; [reflexivity | exact IH].
Qed.

Lemma databaseStages_no_wordpress (env : Env) (payload : RequestPayload) (suffix : string) :
  Forall (fun s : Stage =>
            forall h, Forall (fun e => isWordPressCreate e = false) (snd (fst s h)))
         (take 10 (stagesOf env payload suffix)).
Proof.
  unfold stagesOf. cbn [take].
  repeat (apply Forall_cons_2;
          [ intros h; cbn [fst];
            first [ unfold waitForDeploymentReady, PollImmediate;
                    destruct (pollTicks_run env (Namespace payload)
                                (dbDeploymentName (namesOf (DeploymentName payload) suffix))
                                (5 * Second) (Z.to_nat (120 * Second / (5 * Second))) h)
                      as (answers & final & -> & _);
                    apply pollSchedule_no_wordpress
                  | unfold InitKubeClient, ensureNamespace, createPersistentVolume,
                      createPersistentVolumeClaim, createWPMySQLSecret,
                      generateRandomPassword, createMySQLDeployment, createMySQLService,
                      bind, api, rand_Read, ret;
                    by_cases_on_world; repeat constructor ]
          | ]).
  constructor.
Qed.

(** X17: whatever the outcome of a request, the WordPress deployment is
    submitted only after the MySQL deployment was created without error
    and, later, a status fetch of that very deployment showed a ready
    replica. *)
Theorem wordpress_only_after_ready_database
    (env : Env) (r : Request) (h pre : Trace) (e : Event) (post : Trace) :
  snd (handleCreateWordPress env r h) = pre ++ e :: post ->
  isWordPressCreate e = true ->
  exists (p1 : Trace) (namespace : string) (d : appsv1.Deployment)
         (p2 : Trace) (final : Answer) (p3 : Trace),
    pre = p1 ++ (DeploymentsCreate namespace d, Done)
             :: p2 ++ (DeploymentsGet namespace (appsv1.d_Name d), final) :: p3
    /\ corev1.c_Name (appsv1.d_Container d) = "mysql"
    /\ readyAnswer final = true.
Proof.
  intros Hrun He.
  set (Q := fun e : Event => isWordPressCreate e = false).
  assert (HnQ : ~ Q e) by (unfold Q; rewrite He; discriminate).
  assert (Hnone : forall w, Forall Q w -> w = pre ++ e :: post -> False).
  { intros w Hw ->. apply Forall_app in Hw as [_ Hw].
    apply Forall_cons in Hw as [Hw _]. contradiction. }
  rewrite handleCreateWordPress_stages in Hrun.
  destruct (negb (Method r =? "POST")); [now destruct pre|].
  destruct (Body r) as [err|payload]; [now destruct pre|].
  destruct (Namespace payload =? ""); [now destruct pre|].
  unfold bind in Hrun.
  destruct (suffix_draws env 5 h) as (zs & _ & Hzs).
  destruct (generateRandomSuffix env 5 h) as [[err|suffix] w0].
  { destruct Hzs as [-> _]. exfalso. cbn [ret snd] in Hrun. rewrite app_nil_r in Hrun.
    eapply Hnone; [|exact Hrun]. apply Forall_app. split.
    - apply Forall_map. apply Forall_forall. reflexivity.
    - repeat constructor. }
  destruct Hzs as (-> & _ & _).
  assert (Hw0 : Forall Q (map drawn zs)).
  { apply Forall_map. apply Forall_forall. reflexivity. }
  rewrite <- (take_drop 10 (stagesOf env (withDefaults payload) suffix)) in Hrun.
  destruct (runStages_app_cases (summary (withDefaults payload) suffix) Q _
              (drop 10 (stagesOf env (withDefaults payload) suffix))
              (databaseStages_no_wordpress env (withDefaults payload) suffix)
              (h ++ map drawn zs)) as [Hall | (w1 & w2 & Hw & Hsucc & Hw1)].
  - exfalso. destruct (runStages _ _ _) as [resp w]. simpl in *.
    apply (Hnone (map drawn zs ++ w)); [|exact Hrun]. apply Forall_app. now split.
  - destruct (runStages _ _ _) as [resp w]. simpl in Hw, Hrun. subst w.
    rewrite app_assoc in Hrun.
    destruct (split_after Q e _ _ _ _ (proj2 (Forall_app _ _ _) (conj Hw0 Hw1)) HnQ Hrun)
      as [pre' ->].
    apply databaseTier_run in Hsucc
      as (nsw & o & b1 & b2 & polls & -> & _ & Hdb & (answers & final & -> & Hready)).
    destruct Hdb as (_ & _ & _ & _ & _ & (Hname & _ & _ & _ & _ & Hc) & _).
    destruct (pollSchedule_last (Namespace (withDefaults payload))
                (dbDeploymentName (namesOf (DeploymentName (withDefaults payload)) suffix))
                (5 * Second) answers final) as (before & -> & _).
    rewrite <- Hname.
    exists (map drawn zs
            ++ [(KubeClient (Kubeconfig (withDefaults payload)), Done)] ++ nsw
            ++ [ (PersistentVolumesCreate (made_pvDb o), Done);
                 (PersistentVolumeClaimsCreate (Namespace (withDefaults payload))
                    (made_pvcDb o), Done);
                 (PersistentVolumesCreate (made_pvWp o), Done);
                 (PersistentVolumeClaimsCreate (Namespace (withDefaults payload))
                    (made_pvcWp o), Done);
                 (RandRead 16, Filled b1);
                 (RandRead 16, Filled b2);
                 (SecretsCreate (Namespace (withDefaults payload)) (made_secret o), Done) ]),
      (Namespace (withDefaults payload)), (made_dDb o),
      ((ServicesCreate (Namespace (withDefaults payload)) (made_sDb o), Done) :: before),
      final, pre'.
    split; [|split; [exact Hc | exact Hready]].
    unfold databaseTrace. rewrite <- !app_assoc. simpl. reflexivity.
Qed.

Lemma wordpress_only_after_ready_database_witness :
  exists (p1 : Trace) (namespace : string) (d : appsv1.Deployment)
         (p2 : Trace) (final : Answer) (p3 : Trace),
    take 17 (snd (handleCreateWordPress World.calm (World.post "demo" "site") []))
    = p1 ++ (DeploymentsCreate namespace d, Done)
         :: p2 ++ (DeploymentsGet namespace (appsv1.d_Name d), final) :: p3
    /\ corev1.c_Name (appsv1.d_Container d) = "mysql"
    /\ readyAnswer final = true.
Proof.
  eapply (wordpress_only_after_ready_database World.calm (World.post "demo" "site") []
            _ _ (drop 18 (snd (handleCreateWordPress World.calm (World.post "demo" "site") [])))).
  - symmetry.
    exact (take_drop_middle
             (snd (handleCreateWordPress World.calm (World.post "demo" "site") []))
             17 _ eq_refl).
  - reflexivity.
Defined.

(** ** The contents of the secret *)

Lemma secretData_size (rootPass wpPass deployName : string) :
  size (secretData rootPass wpPass deployName) = 8%nat.
Proof.
  unfold secretData.
  repeat (rewrite map_size_insert_None; [|by simplify_map_eq]).
  now rewrite map_size_empty.
Qed.

Lemma passwordChars_alphabet (bytes : list ascii) :
  String.length (of_bytes (map passwordChar bytes)) = length bytes
  /\ inAlphabet passwordChars (of_bytes (map passwordChar bytes)).
Proof.
  split; [now rewrite length_of_bytes, length_map|].
  unfold inAlphabet. rewrite list_ascii_of_bytes.
  apply Forall_map. apply Forall_forall. intros b _.
  apply index_In. apply index_in_range.
Qed.

(** X18: a secret is submitted by [createWPMySQLSecret] only after both
    passwords were read from the entropy source (16 bytes each); it has the
    name and the namespace asked for, the type Opaque and exactly eight
    entries; the root password and the user password it holds have 16
    bytes each, all from the password alphabet. *)
Theorem createWPMySQLSecret_contents (env : Env)
    (namespace secretName deployName : string) (h : Trace)
    (ns : string) (s : corev1.Secret) (a : Answer) :
  In (SecretsCreate ns s, a)
     (snd (createWPMySQLSecret env namespace secretName deployName h)) ->
  (exists b1 b2 : string,
      snd (createWPMySQLSecret env namespace secretName deployName h)
      = [(RandRead 16, Filled b1); (RandRead 16, Filled b2);
         (SecretsCreate namespace s, a)])
  /\ ns = namespace
  /\ corev1.secret_Name s = secretName
  /\ corev1.secret_Namespace s = namespace
  /\ corev1.secret_Type s = "Opaque"
  /\ size (corev1.secret_Data s) = 8%nat
  /\ exists rootPass wpPass : string,
       corev1.secret_Data s !! "MYSQL_ROOT_PASSWORD" = Some rootPass
       /\ corev1.secret_Data s !! "MYSQL_PASSWORD" = Some wpPass
       /\ String.length rootPass = 16%nat /\ String.length wpPass = 16%nat
       /\ inAlphabet passwordChars rootPass /\ inAlphabet passwordChars wpPass.
Proof.
  unfold createWPMySQLSecret, generateRandomPassword, bind, rand_Read, api, ret.
  destruct (env_randRead env h) as [e|f]; simpl.
  - intros [[=]|[]].
  - destruct (env_randRead env _) as [e|g]; simpl.
    + intros [[=]|[[=]|[]]].
    + set (root := of_bytes (map passwordChar (map f (seq 0 16)))).
      set (wp := of_bytes (map passwordChar (map g (seq 0 16)))).
      assert (Hroot := passwordChars_alphabet (map f (seq 0 16))).
      assert (Hwp := passwordChars_alphabet (map g (seq 0 16))).
      fold root in Hroot. fold wp in Hwp.
      rewrite length_map, length_seq in Hroot, Hwp.
      destruct Hroot as [Lr Ar]. destruct Hwp as [Lw Aw].
      destruct (env_api env _ _) as [e|]; simpl;
        (intros [[=]|[[=]|[[= <- <- <-]|[]]]]);
        (split; [eexists _, _; reflexivity|]);
        cbn [corev1.secret_Name corev1.secret_Namespace corev1.secret_Type
             corev1.secret_Data];
        (repeat split; try apply secretData_size);
        exists root, wp; unfold secretData;
        (repeat split; try assumption; by simplify_map_eq).
Qed.

Lemma createWPMySQLSecret_contents_witness :
  size (secretData "AAAAAAAAAAAAAAAA" "AAAAAAAAAAAAAAAA" "site-abcde-db-svc") = 8%nat.
Proof.
  refine (proj1 (proj2 (proj2 (proj2 (proj2 (proj2
    (createWPMySQLSecret_contents World.calm "demo" "site-abcde-db-secret"
       "site-abcde-db-svc" [] "demo"
       {| corev1.secret_Name := "site-abcde-db-secret";
          corev1.secret_Namespace := "demo";
          corev1.secret_Type := "Opaque";
          corev1.secret_Data :=
            secretData "AAAAAAAAAAAAAAAA" "AAAAAAAAAAAAAAAA" "site-abcde-db-svc" |}
       Done _))))))).
  vm_compute. right. right. left. reflexivity.
Defined.


(** ** What every run keeps to *)

Lemma pollSchedule_Forall (P : Event -> Prop) (namespace name : string) (interval : Z)
    (answers : list Answer) :
  (forall a, P (DeploymentsGet namespace name, a)) ->
  P (Sleep interval, Done) ->
  Forall P (pollSchedule namespace name interval answers).
Proof.
  intros Hget Hsleep. induction answers as [|a answers IH]; [constructor|].
  destruct answers as [|b rest].
  - repeat constructor. apply Hget.
  - rewrite pollSchedule_cons by discriminate.
    constructor; [apply Hget|]. constructor; [exact Hsleep | exact IH].
Qed.

Lemma waitForDeploymentReady_Forall (P : Event -> Prop) (env : Env)
    (namespace name : string) (h : Trace) :
  (forall a, P (DeploymentsGet namespace name, a)) ->
  P (Sleep (5 * Second), Done) ->
  Forall P (snd (waitForDeploymentReady env namespace name (120 * Second) h)).
Proof.
  intros Hget Hsleep. unfold waitForDeploymentReady, PollImmediate.
  destruct (pollTicks_run env namespace name (5 * Second)
              (Z.to_nat (120 * Second / (5 * Second))) h) as (answers & final & -> & _).
  now apply pollSchedule_Forall.
Qed.

(** A property of the draws and of the events of every stage holds of all
    the events of a request. *)
Lemma handler_Forall (P : Event -> Prop) (env : Env) (r : Request) (h : Trace) :
  (forall a, P (RandInt (len suffixChars), a)) ->
  (forall payload suffix,
      Body r = inr payload ->
      Forall (fun s : Stage => forall h, Forall P (snd (fst s h)))
             (stagesOf env (withDefaults payload) suffix)) ->
  Forall P (snd (handleCreateWordPress env r h)).
Proof.
  intros Hdraw Hstages. rewrite handleCreateWordPress_stages.
  destruct (negb (Method r =? "POST")); [constructor|].
  destruct (Body r) as [e|payload] eqn:Hb; [constructor|].
  destruct (Namespace payload =? ""); [constructor|].
  unfold bind.
  destruct (suffix_draws env 5 h) as (zs & _ & Hzs).
  assert (Hw0 : Forall P (map drawn zs)).
  { apply Forall_map. apply Forall_forall. intros z _. apply Hdraw. }
  destruct (generateRandomSuffix env 5 h) as [[e|suffix] w0].
  - destruct Hzs as [-> _]. cbn [ret snd]. rewrite app_nil_r.
    apply Forall_app. split; [exact Hw0|]. repeat constructor. apply Hdraw.
  - destruct Hzs as (-> & _ & _).
    pose proof (runStages_Forall (summary (withDefaults payload) suffix) P _
                  (Hstages payload suffix eq_refl) (h ++ map drawn zs)) as Hw.
    destruct (runStages _ _ _) as [resp w]. simpl in *.
    apply Forall_app. now split.
Qed.

(** Checks a property of events on every event of every stage; [tac]
    settles the property for one event. *)
Ltac every_stage tac :=
  unfold stagesOf; cbv zeta;
  repeat (apply Forall_cons_2;
          [ intros ?h; cbn [fst];
            first [ apply waitForDeploymentReady_Forall; [intros ?a; tac | tac]
                  | unfold InitKubeClient, ensureNamespace, createPersistentVolume,
                      createPersistentVolumeClaim, createWPMySQLSecret,
                      generateRandomPassword, createMySQLDeployment, createMySQLService,
                      createWordPressDeployment, createWordPressService,
                      bind, api, rand_Read, ret;
                    by_cases_on_world;
                    repeat (apply Forall_cons_2; [tac|]); apply Forall_nil_2 ]
          | ]);
  apply Forall_nil_2.

(** X19: every call of a request that names a namespace, whether it goes
    through or not, names the namespace of the request, and so does every
    object submitted: nothing is looked up or created elsewhere. *)
Theorem every_call_in_the_namespace_of_the_request
    (env : Env) (r : Request) (payload : RequestPayload) (h : Trace)
    (e : Event) (namespace : string) :
  Body r = inr payload ->
  In e (snd (handleCreateWordPress env r h)) ->
  In namespace (namespacesOf (fst e)) ->
  namespace = Namespace payload.
Proof.
  intros Hb He Hn.
  assert (Hall : Forall (fun e => forall n, In n (namespacesOf (fst e))
                                            -> n = Namespace payload)
                        (snd (handleCreateWordPress env r h))).
  { apply handler_Forall.
    - intros a n [].
    - intros payload' suffix Hb'. rewrite Hb in Hb'. injection Hb' as <-.
      every_stage ltac:(intros ?n ?Hn; cbn in *; intuition (subst; reflexivity)). }
  rewrite Forall_forall in Hall. apply list_elem_of_In in He.
  exact (Hall e He namespace Hn).
Qed.

Lemma every_call_in_the_namespace_of_the_request_witness : "demo" = "demo".
Proof.
  apply (every_call_in_the_namespace_of_the_request World.calm (World.post "demo" "site")
           {| Kubeconfig := ""; Namespace := "demo"; PersistenceDiskGB := 0;
              DatabaseDiskGB := 0; DeploymentName := "site" |} []
           (NamespacesGet "demo", Done) "demo").
  - reflexivity.
  - vm_compute. do 6 right. left. reflexivity.
  - simpl. tauto.
Defined.

Lemma withDefaults_sizes (payload : RequestPayload) :
  (1 <= DatabaseDiskGB (withDefaults payload)
   /\ (DatabaseDiskGB (withDefaults payload) = DatabaseDiskGB payload
       \/ DatabaseDiskGB (withDefaults payload) = 5))
  /\ (1 <= PersistenceDiskGB (withDefaults payload)
      /\ (PersistenceDiskGB (withDefaults payload) = PersistenceDiskGB payload
          \/ PersistenceDiskGB (withDefaults payload) = 5)).
Proof.
  unfold withDefaults. cbn [DatabaseDiskGB PersistenceDiskGB].
  destruct (Z.leb_spec (DatabaseDiskGB payload) 0);
    destruct (Z.leb_spec (PersistenceDiskGB payload) 0); repeat split; auto; lia.
Qed.

(** X20: no volume and no claim is ever submitted with a size that is not
    positive: whatever the request and however far it gets, the storage a
    call asks for is [n] Gi where [n >= 1] is a size given in the request
    or the default 5. *)
Theorem storage_size_always_positive
    (env : Env) (r : Request) (payload : RequestPayload) (h : Trace)
    (e : Event) (quantity : string) :
  Body r = inr payload ->
  In e (snd (handleCreateWordPress env r h)) ->
  requestedStorage (fst e) = Some quantity ->
  exists n : Z,
    1 <= n
    /\ (n = DatabaseDiskGB payload \/ n = PersistenceDiskGB payload \/ n = 5)
    /\ quantity = Sprintf_d n +:+ "Gi".
Proof.
  intros Hb He Hq.
  assert (Hall : Forall (fun e => forall q, requestedStorage (fst e) = Some q ->
                           q = Sprintf_d (DatabaseDiskGB (withDefaults payload)) +:+ "Gi"
                           \/ q = Sprintf_d (PersistenceDiskGB (withDefaults payload)) +:+ "Gi")
                        (snd (handleCreateWordPress env r h))).
  { apply handler_Forall.
    - intros a q [=].
    - intros payload' suffix Hb'. rewrite Hb in Hb'. injection Hb' as <-.
      every_stage ltac:(let E := fresh "E" in
                        intros ? E;
                        cbn [requestedStorage fst corev1.pv_Capacity
                             corev1.pvc_Requests] in E;
                        first [discriminate E | injection E as <-; auto]). }
  rewrite Forall_forall in Hall. apply list_elem_of_In in He.
  destruct (withDefaults_sizes payload) as [[Hd1 Hd2] [Hp1 Hp2]].
  destruct (Hall e He quantity Hq) as [-> | ->].
  - exists (DatabaseDiskGB (withDefaults payload)).
    split; [exact Hd1|]. split; [|reflexivity].
    destruct Hd2 as [-> | ->]; auto.
  - exists (PersistenceDiskGB (withDefaults payload)).
    split; [exact Hp1|]. split; [|reflexivity].
    destruct Hp2 as [-> | ->]; auto.
Qed.

Lemma storage_size_always_positive_witness :
  exists n : Z, 1 <= n /\ (n = 0 \/ n = 0 \/ n = 5) /\ "5Gi" = Sprintf_d n +:+ "Gi".
Proof.
  apply (storage_size_always_positive World.calm (World.post "demo" "site")
           {| Kubeconfig := ""; Namespace := "demo"; PersistenceDiskGB := 0;
              DatabaseDiskGB := 0; DeploymentName := "site" |} []
           (PersistentVolumesCreate
              {| corev1.pv_Name := "site-abcde-db-pv";
                 corev1.pv_Labels := {[ "app" := "site-abcde-db-pv" ]};
                 corev1.pv_AccessModes := ["ReadWriteOnce"];
                 corev1.pv_ReclaimPolicy := "Retain";
                 corev1.pv_Capacity := "5Gi";
                 corev1.pv_HostPath := "/mnt/data/demo/site-abcde-db-pv_data";
                 corev1.pv_HostPathType := "DirectoryOrCreate" |}, Done)
           "5Gi").
  - reflexivity.
  - vm_compute. do 7 right. left. reflexivity.
  - reflexivity.
Defined.

(** ** The earlier revision of the handler *)

(** X21: the earlier revision of the handler contacts the outside world
    exactly when the request passes its validation: it emits no event if
    and only if the method is not POST, the body does not decode, the
    namespace is empty or the deployment name is empty. *)
Theorem earlier_rejected_iff_no_event (env : Env) (r : Request) (h : Trace) :
  snd (Earlier.handleCreateWordPress env r h) = []
  <-> Method r <> "POST"
      \/ (exists e, Body r = inl e)
      \/ (exists payload, Body r = inr payload
                          /\ (Namespace payload = "" \/ DeploymentName payload = "")).
Proof.
  unfold Earlier.handleCreateWordPress.
  destruct (String.eqb_spec (Method r) "POST") as [Hm|Hm]; cbn [negb].
  2:{ split; auto. }
  destruct (Body r) as [e|payload] eqn:Hb.
  { split; eauto. }
  destruct (String.eqb_spec (Namespace payload) "") as [Hn|Hn].
  { split; [|reflexivity]. intros _. right. right. eauto. }
  destruct (String.eqb_spec (DeploymentName payload) "") as [Hd|Hd].
  { split; [|reflexivity]. intros _. right. right. eauto. }
  split.
  - unfold bind at 1, InitKubeClient.
    destruct (env_kubeClient env h (Kubeconfig payload)); cbn [ret];
      [discriminate|].
    match goal with
    | |- context [let '(b, w2) := ?m in _] => destruct m as [b w2]
    end.
    discriminate.
  - intros [E | [[e E] | (q & E & [Hq | Hq])]]; [contradiction | discriminate| |];
      injection E as <-; contradiction.
Qed.

(** ** The poll loop under any timeout *)


